(** * gmaps-keycheck: a shallow embedding of [gmaps-keycheck.py]

    The script probes fifteen Google Maps endpoints with one API key and one
    place, collects the probes that answered in a dict and prints a table.
    This file embeds [mask_key], [fetch_json], [fetch_image],
    [test_key_place], [print_table] and [main], and proves properties of
    them.

    - A Python [str] is a list of Unicode code points ([str]); literals are
      written [U "text"].
    - Parsed JSON and the other Python values the script handles are the
      type [value]; duck-typed accesses ([.get], [x["k"]], [x[0]], [in],
      [len]) raise the exception Python raises on a value of the wrong
      shape.
    - The network, the disk and the clock are a [world]; the requests sent,
      the files written, the text printed and the unread input lines are the
      state [io] threaded by the monad [M], which also carries exceptions.
    - What the script takes from libraries without computing it itself
      (SHA-1, [repr], [int] on text, [json.dumps]) is the class [PyLib]. *)

From Stdlib Require Import ZArith List Bool Lia String Ascii Floats DecimalString.
From stdpp Require Import gmap list.

Local Open Scope Z_scope.

(** ** Strings *)

Definition str := list N.

Definition U (s : string) : str :=
  map N_of_ascii (list_ascii_of_string s).
Arguments U s%_string.

Fixpoint str_eqb (a b : str) : bool :=
  match a, b with
  | [], [] => true
  | x :: a', y :: b' => N.eqb x y && str_eqb a' b'
  | _, _ => false
  end.

(** [a in b] on two strings: [a] occurs in [b] as a substring. *)
Fixpoint starts_with (a b : str) : bool :=
  match a, b with
  | [], _ => true
  | x :: a', y :: b' => N.eqb x y && starts_with a' b'
  | _ :: _, [] => false
  end.

Fixpoint str_in (a b : str) : bool :=
  starts_with a b ||
  match b with
  | [] => false
  | _ :: b' => str_in a b'
  end.

(** [str.isspace] on one character: the code points Python treats as
    whitespace in [strip()] and [split()]. *)
Definition is_space (c : N) : bool :=
  ((9 <=? c) && (c <=? 13) || (28 <=? c) && (c <=? 32)
   || (c =? 133) || (c =? 160) || (c =? 5760)
   || (8192 <=? c) && (c <=? 8202)
   || (c =? 8232) || (c =? 8233) || (c =? 8239) || (c =? 8287)
   || (c =? 12288))%N.

Fixpoint lstrip (s : str) : str :=
  match s with
  | [] => []
  | c :: s' => if is_space c then lstrip s' else s
  end.

Definition rstrip (s : str) : str := rev (lstrip (rev s)).

Definition strip (s : str) : str := lstrip (rstrip s).

(** [s.split()]: the maximal runs of non-whitespace characters, in order. *)
Fixpoint split (s : str) : list str :=
  match s with
  | [] => []
  | c :: s' =>
      if is_space c then split s'
      else match s' with
           | [] => [[c]]
           | d :: _ =>
               if is_space d then [c] :: split s'
               else match split s' with
                    | t :: ts => (c :: t) :: ts
                    | [] => [[c]]
                    end
           end
  end.

(** [s[:n]] and [s[-n:]] for a literal [n]. *)
Definition slice_to (n : nat) (s : str) : str := take n s.
Definition slice_last (n : nat) (s : str) : str := drop (length s - n)%nat s.

Definition ljust (n : nat) (s : str) : str :=
  s ++ repeat 32%N (n - length s)%nat.

(** [str(z)] for an int. *)
Definition str_of_int (z : Z) : str := U (NilZero.string_of_int (Z.to_int z)).

(** [s.lower()] on the ASCII letters; header field names are ASCII. *)
Definition lower (s : str) : str :=
  map (fun c => if (65 <=? c) && (c <=? 90) then c + 32 else c)%N s.

(** ** Python values *)

#[warnings="-register-all"]
Inductive value :=
| VNone
| VBool (b : bool)
| VInt (z : Z)
| VFloat (f : float)
| VStr (s : str)
| VList (l : list value)
| VDict (d : list (str * value)).

(** ** Dicts: association lists in insertion order *)

Fixpoint dict_get {V} (k : str) (d : list (str * V)) : option V :=
  match d with
  | [] => None
  | (k', v) :: d' => if str_eqb k k' then Some v else dict_get k d'
  end.

Fixpoint dict_set {V} (k : str) (v : V) (d : list (str * V)) : list (str * V) :=
  match d with
  | [] => [(k, v)]
  | (k', v') :: d' =>
      if str_eqb k k' then (k, v) :: d' else (k', v') :: dict_set k v d'
  end.

(** ** Exceptions *)

Inductive exn :=
| AttributeError | KeyError | IndexError | TypeError | ValueError
| OSError | RequestException | EOFError
| SystemExit (code : Z).

Inductive result (A : Type) :=
| Ok (a : A)
| Raise (e : exn).
Arguments Ok {A} a.
Arguments Raise {A} e.

Definition and_then {A B} (r : result A) (k : A -> result B) : result B :=
  match r with
  | Ok a => k a
  | Raise e => Raise e
  end.

(** ** What the script takes from Python's libraries *)

Class PyLib := {
  (** [hashlib.sha1(key.encode()).hexdigest()] *)
  sha1_hexdigest : str -> str;
  (** [repr(v)], which [str(v)] is for a float, a list and a dict *)
  py_repr : value -> str;
  (** [int(s)] on text; [None] stands for ValueError *)
  py_int : str -> option Z;
  (** [json.dumps(v, indent=2).splitlines()] *)
  json_dumps_lines : value -> list str
}.

(** ** Operations on values *)

Definition truthy (v : value) : bool :=
  match v with
  | VNone => false
  | VBool b => b
  | VInt z => negb (z =? 0)
  | VFloat f => negb (PrimFloat.eqb f 0%float)
  | VStr s => match s with [] => false | _ => true end
  | VList l => match l with [] => false | _ => true end
  | VDict d => match d with [] => false | _ => true end
  end.

(** [v == "lit"] *)
Definition eq_str (v : value) (lit : str) : bool :=
  match v with
  | VStr s => str_eqb s lit
  | _ => false
  end.

Definition is_none (v : value) : bool :=
  match v with VNone => true | _ => false end.

(** [v.get(k, dflt)] *)
Definition get (v : value) (k : str) (dflt : value) : result value :=
  match v with
  | VDict d => Ok (default dflt (dict_get k d))
  | _ => Raise AttributeError
  end.

(** [v[k]] for a string [k] *)
Definition item (v : value) (k : str) : result value :=
  match v with
  | VDict d => match dict_get k d with Some x => Ok x | None => Raise KeyError end
  | _ => Raise TypeError
  end.

(** [v[0]]; a dict parsed from JSON has string keys only *)
Definition item0 (v : value) : result value :=
  match v with
  | VList l => match l with x :: _ => Ok x | [] => Raise IndexError end
  | VStr s => match s with c :: _ => Ok (VStr [c]) | [] => Raise IndexError end
  | VDict _ => Raise KeyError
  | _ => Raise TypeError
  end.

(** [k in v] for a string [k] *)
Definition contains (k : str) (v : value) : result bool :=
  match v with
  | VDict d => Ok (match dict_get k d with Some _ => true | None => false end)
  | VList l => Ok (existsb (fun x => eq_str x k) l)
  | VStr s => Ok (str_in k s)
  | _ => Raise TypeError
  end.

(** [len(v)] *)
Definition len (v : value) : result Z :=
  match v with
  | VList l => Ok (Z.of_nat (length l))
  | VStr s => Ok (Z.of_nat (length s))
  | VDict d => Ok (Z.of_nat (length d))
  | _ => Raise TypeError
  end.

(** [str(v)], as an f-string formats [{v}] *)
Definition py_str `{PyLib} (v : value) : str :=
  match v with
  | VNone => U "None"
  | VBool true => U "True"
  | VBool false => U "False"
  | VInt z => str_of_int z
  | VStr s => s
  | _ => py_repr v
  end.

(** ** The world outside the script *)

Definition path := list str.

(** What a file holds: the rows [csv.writer] was given, the bytes of a
    download, or whatever a write that failed midway left. *)
Inductive file :=
| Csv (rows : list (list str))
| Blob (bytes : list Byte.byte)
| Truncated.

Record request := {
  meth : str;
  url : str;
  params : list (str * value);
  files : list (str * file);
  json : option value
}.

Record response := {
  status_code : Z;
  (** [r.json()]; [None] when the body does not parse *)
  body : option value;
  content : list Byte.byte;
  headers : list (str * str)
}.

Inductive reply :=
| Unreachable
| Response (r : response).

(** A write goes through, is refused before the file exists, or fails
    after the file was created. *)
Inductive disk_reply :=
| DiskOk
| DiskRefused
| DiskFailsMidway.

Record world := {
  (** the answer to the [n]-th request of the run *)
  server : nat -> request -> reply;
  (** what creating and writing the file at a path does *)
  disk : path -> disk_reply;
  (** [int(time.time())] *)
  clock : Z
}.

Record io := {
  net : list request;
  fs : gmap path file;
  out : list str;
  inp : list str
}.

(** ** The monad: state [io] and exceptions *)

Definition M (A : Type) : Type := io -> io * result A.

Definition ret {A} (a : A) : M A := fun s => (s, Ok a).

Definition bind {A B} (m : M A) (k : A -> M B) : M B :=
  fun s =>
    match m s with
    | (s', Ok a) => k a s'
    | (s', Raise e) => (s', Raise e)
    end.

Definition lift {A} (r : result A) : M A := fun s => (s, r).

Definition raise {A} (e : exn) : M A := fun s => (s, Raise e).

(** [try: m  except: h] with a bare [except] *)
Definition try_except {A} (m : M A) (h : M A) : M A :=
  fun s =>
    match m s with
    | (s', Ok a) => (s', Ok a)
    | (s', Raise _) => h s'
    end.

Notation "'let*' x ':=' m 'in' k" := (bind m (fun x => k))
  (at level 10, x name, m at level 100, k at level 200).
Notation "'let*' ' p ':=' m 'in' k" := (bind m (fun x => match x with p => k end))
  (at level 10, p pattern, m at level 100, k at level 200).
(** a step that touches neither the network nor the disk but may raise *)
Notation "'let!' x ':=' r 'in' k" := (bind (lift r) (fun x => k))
  (at level 10, x name, r at level 100, k at level 200).
Notation "m '>>' k" := (bind m (fun _ => k))
  (at level 100, k at level 200, right associativity).

Fixpoint for_each {A C} (xs : list A) (f : A -> C -> M C) (c : C) : M C :=
  match xs with
  | [] => ret c
  | x :: xs' => let* c' := f x c in for_each xs' f c'
  end.

(** ** The script *)

Definition SERVICES : list str :=
  [U "geocode"; U "batchgeocode"; U "staticmap"; U "streetview";
   U "photoreference"; U "placedetails"; U "textsearch"; U "distancematrix";
   U "elevation"; U "timezone"; U "nearbysearch"; U "autocomplete";
   U "snaptoroads"; U "nearestroads"; U "geolocate"].

(** One entry of [results]: [{"http": ..., "info": ..., "raw": ...}]. *)
Record outcome := {
  http : option Z;
  info : value;
  raw : value
}.

(** The locals of [test_key_place] that the loop body reads and assigns. *)
Record ctx := {
  results : list (str * outcome);
  geo : value;
  pid : value
}.

Definition set_result (name : str) (o : outcome) (c : ctx) : ctx :=
  {| results := dict_set name o (results c); geo := geo c; pid := pid c |}.

Definition code_is (code : option Z) (n : Z) : bool :=
  match code with
  | Some z => z =? n
  | None => false
  end.

(** [h.get(name)] on the case-insensitive headers of a response *)
Fixpoint header_get (name : str) (h : list (str * str)) : option str :=
  match h with
  | [] => None
  | (k, v) :: h' =>
      if str_eqb (lower k) (lower name) then Some v else header_get name h'
  end.

(** [dict(h)] *)
Definition dict_of_headers (h : list (str * str)) : value :=
  VDict (map (fun kv => (fst kv, VStr (snd kv))) h).

Definition ellipsis : str := [8230%N].

Section Script.
Context `{PyLib} (w : world).

Definition mask_key (key : str) : str :=
  let h := slice_to 8 (sha1_hexdigest key) in
  slice_to 4 key ++ ellipsis ++ slice_last 4 key ++ U " (" ++ h ++ U ")".

(** [session.request]: the request goes out and the server answers, or the
    transport raises. *)
Definition session_request (q : request) : M response :=
  fun s =>
    let s' := {| net := net s ++ [q]; fs := fs s; out := out s; inp := inp s |} in
    match server w (length (net s)) q with
    | Unreachable => (s', Raise RequestException)
    | Response r => (s', Ok r)
    end.

Definition response_json (r : response) : result value :=
  match body r with
  | Some v => Ok v
  | None => Raise ValueError
  end.

(** [mkdir(parents=True)], [open(p, "w")] and the write. *)
Definition write_file (p : path) (f : file) : M unit :=
  fun s =>
    match disk w p with
    | DiskOk =>
        ({| net := net s; fs := <[p := f]> (fs s); out := out s; inp := inp s |}, Ok tt)
    | DiskRefused => (s, Raise OSError)
    | DiskFailsMidway =>
        ({| net := net s; fs := <[p := Truncated]> (fs s); out := out s; inp := inp s |},
         Raise OSError)
    end.

(** [open(p, "rb")] *)
Definition read_file (p : path) : M file :=
  fun s =>
    match fs s !! p with
    | Some f => (s, Ok f)
    | None => (s, Raise OSError)
    end.

Definition print (line : str) : M unit :=
  fun s => ({| net := net s; fs := fs s; out := out s ++ [line ++ [10%N]]; inp := inp s |}, Ok tt).

Definition input (prompt : str) : M str :=
  fun s =>
    match inp s with
    | l :: rest => ({| net := net s; fs := fs s; out := out s ++ [prompt]; inp := rest |}, Ok l)
    | [] => ({| net := net s; fs := fs s; out := out s ++ [prompt]; inp := [] |}, Raise EOFError)
    end.

Definition fetch_json (method url : str) (params : list (str * value))
    (files : list (str * file)) (json : option value) : M (option Z * value) :=
  try_except
    (let* r := session_request
         {| meth := method; url := url; params := params; files := files; json := json |} in
     let! js := response_json r in
     ret (Some (status_code r), js))
    (ret (None, VDict [])).

Definition fetch_image (url : str) (params : list (str * value)) (dest : path)
    : M (bool * option Z * list (str * str)) :=
  try_except
    (let* r := session_request
         {| meth := U "get"; url := url; params := params; files := []; json := None |} in
     if status_code r =? 200 then
       write_file dest (Blob (content r)) >>
       ret (true, Some (status_code r), headers r)
     else ret (false, Some (status_code r), headers r))
    (ret (false, None, [])).

(** The [info] and [raw] of a downloaded image, from its headers:
    [int(h.get("Content-Length", 0)) // 1024] and the content type. *)
Definition image_info (h : list (str * str)) : result value :=
  match
    match header_get (U "Content-Length") h with
    | Some t => py_int t
    | None => Some 0
    end
  with
  | Some n =>
      let sz := n / 1024 in
      Ok (VStr (default [] (header_get (U "Content-Type") h)
                ++ U ", " ++ str_of_int sz ++ U "KB"))
  | None => Raise ValueError
  end.

Section Probes.
Variables (key place : str) (out_root : path).

Definition probe_geocode (c : ctx) : M ctx :=
  let* '(code, js) := fetch_json (U "get")
      (U "https://maps.googleapis.com/maps/api/geocode/json")
      [(U "address", VStr place); (U "key", VStr key)] [] None in
  let! st := get js (U "status") VNone in
  if eq_str st (U "OK") then
    let! rs := item js (U "results") in
    let! r0 := item0 rs in
    let! addr := item r0 (U "formatted_address") in
    let c1 := set_result (U "geocode") {| http := code; info := addr; raw := js |} c in
    let! rs := item js (U "results") in
    let! r0 := item0 rs in
    let! g := item r0 (U "geometry") in
    let! loc := item g (U "location") in
    let! lat := item loc (U "lat") in
    let! lng := item loc (U "lng") in
    let geo1 := VStr (py_str lat ++ U "," ++ py_str lng) in
    let! rs := item js (U "results") in
    let! r0 := item0 rs in
    let! p := item r0 (U "place_id") in
    ret {| results := results c1; geo := geo1; pid := p |}
  else ret c.

Definition probe_batchgeocode (c : ctx) : M ctx :=
  let batch_csv := out_root ++ [U "batch.csv"] in
  write_file batch_csv (Csv [[U "address"]; [place]]) >>
  let* f := read_file batch_csv in
  let* '(code, js) := fetch_json (U "post")
      (U "https://maps.googleapis.com/maps/api/geocode/batch/json")
      [(U "key", VStr key)] [(U "file", f)] None in
  let! inf := if code_is code 200 then Ok (VStr []) else get js (U "status") (VStr []) in
  ret (set_result (U "batchgeocode") {| http := code; info := inf; raw := js |} c).

Definition probe_staticmap (c : ctx) : M ctx :=
  let* '(ok, code, h) := fetch_image
      (U "https://maps.googleapis.com/maps/api/staticmap")
      [(U "center", geo c); (U "zoom", VInt 7); (U "size", VStr (U "400x400"));
       (U "key", VStr key)]
      (out_root ++ [U "staticmap.png"]) in
  if ok : bool then
    let! inf := image_info h in
    ret (set_result (U "staticmap")
           {| http := code; info := inf; raw := dict_of_headers h |} c)
  else ret c.

Definition probe_streetview (c : ctx) : M ctx :=
  let* '(ok, code, h) := fetch_image
      (U "https://maps.googleapis.com/maps/api/streetview")
      [(U "location", geo c); (U "size", VStr (U "400x400")); (U "key", VStr key)]
      (out_root ++ [U "streetview.jpg"]) in
  if ok : bool then
    let! inf := image_info h in
    ret (set_result (U "streetview")
           {| http := code; info := inf; raw := dict_of_headers h |} c)
  else ret c.

Definition probe_photoreference (c : ctx) : M ctx :=
  let* '(code, js) := fetch_json (U "get")
      (U "https://maps.googleapis.com/maps/api/place/findplacefromtext/json")
      [(U "input", VStr place); (U "inputtype", VStr (U "textquery"));
       (U "fields", VStr (U "photos")); (U "key", VStr key)] [] None in
  let! cands := get js (U "candidates") (VList []) in
  let! has :=
    if truthy cands then and_then (item0 cands) (contains (U "photos"))
    else Ok false in
  if has : bool then
    let! c0 := item0 cands in
    let! photos := item c0 (U "photos") in
    let! ph := item0 photos in
    let! ref := get ph (U "photo_reference") (VStr []) in
    ret (set_result (U "photoreference") {| http := code; info := ref; raw := js |} c)
  else ret c.

Definition probe_placedetails (c : ctx) : M ctx :=
  let* '(code, js) := fetch_json (U "get")
      (U "https://maps.googleapis.com/maps/api/place/details/json")
      [(U "place_id", pid c); (U "key", VStr key)] [] None in
  let! st := get js (U "status") VNone in
  if eq_str st (U "OK") then
    let! r := item js (U "result") in
    let! nm := get r (U "name") (VStr []) in
    ret (set_result (U "placedetails") {| http := code; info := nm; raw := js |} c)
  else ret c.

Definition probe_textsearch (c : ctx) : M ctx :=
  let* '(code, js) := fetch_json (U "get")
      (U "https://maps.googleapis.com/maps/api/place/textsearch/json")
      [(U "query", VStr place); (U "key", VStr key)] [] None in
  let! rs := get js (U "results") VNone in
  if truthy rs then
    let! rs := item js (U "results") in
    let! r0 := item0 rs in
    let! nm := get r0 (U "name") (VStr []) in
    ret (set_result (U "textsearch") {| http := code; info := nm; raw := js |} c)
  else ret c.

Definition probe_distancematrix (c : ctx) : M ctx :=
  let* '(code, js) := fetch_json (U "get")
      (U "https://maps.googleapis.com/maps/api/distancematrix/json")
      [(U "origins", geo c); (U "destinations", geo c); (U "key", VStr key)] [] None in
  let! rows := get js (U "rows") (VList []) in
  let! has :=
    if truthy rows then
      and_then (item0 rows) (fun r0 =>
      and_then (get r0 (U "elements") (VList [])) (fun els => Ok (truthy els)))
    else Ok false in
  if has : bool then
    let! r0 := item0 rows in
    let! els := item r0 (U "elements") in
    let! el := item0 els in
    let! hasd := contains (U "distance") el in
    if hasd : bool then
      let! dist := item el (U "distance") in
      let! d := item dist (U "text") in
      let! dur := item el (U "duration") in
      let! t := item dur (U "text") in
      ret (set_result (U "distancematrix")
             {| http := code; info := VStr (py_str d ++ U ", " ++ py_str t); raw := js |} c)
    else ret c
  else ret c.

Definition probe_elevation (c : ctx) : M ctx :=
  let* '(code, js) := fetch_json (U "get")
      (U "https://maps.googleapis.com/maps/api/elevation/json")
      [(U "locations", geo c); (U "key", VStr key)] [] None in
  let! rs := get js (U "results") (VList []) in
  if truthy rs then
    let! r0 := item0 rs in
    let! e := get r0 (U "elevation") (VStr []) in
    ret (set_result (U "elevation")
           {| http := code; info := VStr (py_str e ++ U "m"); raw := js |} c)
  else ret c.

Definition probe_timezone (c : ctx) : M ctx :=
  let ts := clock w in
  let* '(code, js) := fetch_json (U "get")
      (U "https://maps.googleapis.com/maps/api/timezone/json")
      [(U "location", geo c); (U "timestamp", VInt ts); (U "key", VStr key)] [] None in
  let! tz := get js (U "timeZoneId") (VStr []) in
  if truthy tz then
    ret (set_result (U "timezone") {| http := code; info := tz; raw := js |} c)
  else ret c.

Definition probe_nearbysearch (c : ctx) : M ctx :=
  let* '(code, js) := fetch_json (U "get")
      (U "https://maps.googleapis.com/maps/api/place/nearbysearch/json")
      [(U "location", geo c); (U "radius", VInt 1000);
       (U "type", VStr (U "restaurant")); (U "key", VStr key)] [] None in
  let! rs := get js (U "results") VNone in
  if truthy rs then
    let! rs := item js (U "results") in
    let! r0 := item0 rs in
    let! nm := get r0 (U "name") (VStr []) in
    ret (set_result (U "nearbysearch") {| http := code; info := nm; raw := js |} c)
  else ret c.

Definition probe_autocomplete (c : ctx) : M ctx :=
  let! prefix := match split place with t :: _ => Ok t | [] => Raise IndexError end in
  let* '(code, js) := fetch_json (U "get")
      (U "https://maps.googleapis.com/maps/api/place/autocomplete/json")
      [(U "input", VStr prefix); (U "types", VStr (U "geocode")); (U "key", VStr key)]
      [] None in
  let! preds := get js (U "predictions") (VList []) in
  if truthy preds then
    let! p0 := item0 preds in
    let! desc := get p0 (U "description") (VStr []) in
    ret (set_result (U "autocomplete") {| http := code; info := desc; raw := js |} c)
  else ret c.

Definition probe_snaptoroads (c : ctx) : M ctx :=
  let* '(code, js) := fetch_json (U "get")
      (U "https://roads.googleapis.com/v1/snapToRoads")
      [(U "path", VStr (py_str (geo c) ++ U "|" ++ py_str (geo c)));
       (U "interpolate", VBool true); (U "key", VStr key)] [] None in
  let! sp := get js (U "snappedPoints") (VList []) in
  let! pts := len sp in
  if negb (pts =? 0) then
    ret (set_result (U "snaptoroads")
           {| http := code; info := VStr (str_of_int pts ++ U " points"); raw := js |} c)
  else ret c.

Definition probe_nearestroads (c : ctx) : M ctx :=
  let* '(code, js) := fetch_json (U "get")
      (U "https://roads.googleapis.com/v1/nearestRoads")
      [(U "points", geo c); (U "key", VStr key)] [] None in
  let! sp := get js (U "snappedPoints") (VList []) in
  let! pts := len sp in
  if negb (pts =? 0) then
    ret (set_result (U "nearestroads")
           {| http := code; info := VStr (str_of_int pts ++ U " points"); raw := js |} c)
  else ret c.

Definition probe_geolocate (c : ctx) : M ctx :=
  let* '(code, js) := fetch_json (U "post")
      (U "https://www.googleapis.com/geolocation/v1/geolocate")
      [(U "key", VStr key)] [] (Some (VDict [(U "considerIp", VBool true)])) in
  let! loc := get js (U "location") (VDict []) in
  let! lat := get loc (U "lat") VNone in
  let! inf :=
    if negb (is_none lat) then
      and_then (item loc (U "lat")) (fun la =>
      and_then (item loc (U "lng")) (fun ln =>
      Ok (VStr (py_str la ++ U "," ++ py_str ln))))
    else
      and_then (get js (U "status") (VStr (U "UNKNOWN"))) (fun dflt =>
      get js (U "error") dflt) in
  ret (set_result (U "geolocate") {| http := code; info := inf; raw := js |} c).

(** The body of the [for svc in SERVICES] loop: the [if]/[elif] chain. *)
Definition loop_body (svc : str) (c : ctx) : M ctx :=
  if str_eqb svc (U "geocode") then probe_geocode c
  else if str_eqb svc (U "batchgeocode") then probe_batchgeocode c
  else if str_eqb svc (U "staticmap") && truthy (geo c) then probe_staticmap c
  else if str_eqb svc (U "streetview") && truthy (geo c) then probe_streetview c
  else if str_eqb svc (U "photoreference") && truthy (pid c) then probe_photoreference c
  else if str_eqb svc (U "placedetails") && truthy (pid c) then probe_placedetails c
  else if str_eqb svc (U "textsearch") then probe_textsearch c
  else if str_eqb svc (U "distancematrix") && truthy (geo c) then probe_distancematrix c
  else if str_eqb svc (U "elevation") && truthy (geo c) then probe_elevation c
  else if str_eqb svc (U "timezone") && truthy (geo c) then probe_timezone c
  else if str_eqb svc (U "nearbysearch") && truthy (geo c) then probe_nearbysearch c
  else if str_eqb svc (U "autocomplete") then probe_autocomplete c
  else if str_eqb svc (U "snaptoroads") && truthy (geo c) then probe_snaptoroads c
  else if str_eqb svc (U "nearestroads") && truthy (geo c) then probe_nearestroads c
  else if str_eqb svc (U "geolocate") then probe_geolocate c
  else ret c.

Definition ctx0 : ctx := {| results := []; geo := VNone; pid := VNone |}.

(** [test_key_place] up to its [return]: the loop, with the locals it ends in. *)
Definition run_probes : M ctx := for_each SERVICES loop_body ctx0.

Definition test_key_place : M (list (str * outcome)) :=
  let* c := run_probes in
  ret (results c).

End Probes.

Definition dashes : str := repeat 45%N 60.

Definition print_table (key place : str) (results : list (str * outcome)) : M unit :=
  print ([10%N] ++ U "Key " ++ mask_key key ++ U "  Place " ++ [34%N] ++ place ++ [34%N]) >>
  print dashes >>
  print (ljust 15 (U "API") ++ ljust 6 (U "HTTP") ++ U "  Info") >>
  print dashes >>
  for_each results (fun '(svc, r) _ =>
    let http_col :=
      ljust 6 (match http r with
               | Some z => if z =? 0 then [] else str_of_int z
               | None => []
               end) in
    print (ljust 15 (slice_to 15 svc) ++ http_col ++ U "  " ++ py_str (info r)) >>
    if negb (is_none (raw r)) then
      for_each (json_dumps_lines (raw r)) (fun line _ => print (repeat 32%N 23 ++ line)) tt
    else ret tt) tt >>
  print dashes.

Definition main : M unit :=
  let* k := input (U "Enter your Google Maps API key: ") in
  let key := strip k in
  let* p := input (U "Enter place (address or lat,lng): ") in
  let place := strip p in
  if negb (truthy (VStr key)) || negb (truthy (VStr place)) then
    print (U "API key and place are required.") >>
    raise (SystemExit 1)
  else
    let out_root := [U "output"; slice_to 8 (sha1_hexdigest key)] in
    let* results := test_key_place key place out_root in
    print_table key place results.

End Script.

(** The exit status of the process, from how [main] ended. *)
Definition exit_status (r : result unit) : Z :=
  match r with
  | Ok _ => 0
  | Raise (SystemExit n) => n
  | Raise _ => 1
  end.

Definition io0 (lines : list str) : io :=
  {| net := []; fs := ∅; out := []; inp := lines |}.

(** ** Vocabulary of the statements *)

(** The state after one more request has gone out. *)
Definition sent (q : request) (s : io) : io :=
  {| net := net s ++ [q]; fs := fs s; out := out s; inp := inp s |}.

(** What [fetch_json] makes of a reply. *)
Definition parsed (rep : reply) : option Z * value :=
  match rep with
  | Unreachable => (None, VDict [])
  | Response r =>
      match body r with
      | Some js => (Some (status_code r), js)
      | None => (None, VDict [])
      end
  end.

(** What [fetch_image] returns on a reply, given what the disk does. *)
Definition image_fetched (rep : reply) (d : disk_reply)
    : bool * option Z * list (str * str) :=
  match rep with
  | Unreachable => (false, None, [])
  | Response r =>
      if status_code r =? 200 then
        match d with
        | DiskOk => (true, Some (status_code r), headers r)
        | _ => (false, None, [])
        end
      else (false, Some (status_code r), headers r)
  end.

Definition stored (p : path) (f : file) (s : io) : io :=
  {| net := net s; fs := <[p := f]> (fs s); out := out s; inp := inp s |}.

(** What [fetch_image] leaves on the disk. *)
Definition image_stored (rep : reply) (d : disk_reply) (dest : path) (s : io) : io :=
  match rep with
  | Unreachable => s
  | Response r =>
      if status_code r =? 200 then
        match d with
        | DiskOk => stored dest (Blob (content r)) s
        | DiskRefused => s
        | DiskFailsMidway => stored dest Truncated s
        end
      else s
  end.

Definition coord_services : list str :=
  [U "staticmap"; U "streetview"; U "distancematrix"; U "elevation";
   U "timezone"; U "nearbysearch"; U "snaptoroads"; U "nearestroads"].

Definition place_services : list str :=
  [U "photoreference"; U "placedetails"].

(** The probes that send the derived position as one parameter. *)
Definition position_probes : list str :=
  [U "staticmap"; U "streetview"; U "distancematrix"; U "elevation";
   U "timezone"; U "nearbysearch"].

Definition mem (x : str) (l : list str) : bool := existsb (str_eqb x) l.


(** Whether the loop runs the probe of [svc] when the locals hold [g] and [p]. *)
Definition gate (g p : value) (svc : str) : bool :=
  if mem svc coord_services then truthy g
  else if mem svc place_services then truthy p
  else true.

Definition field (v : value) (k : str) : value :=
  match v with
  | VDict d => default VNone (dict_get k d)
  | _ => VNone
  end.

Definition first (v : value) : value :=
  match v with
  | VList (x :: _) => x
  | _ => VNone
  end.

Definition has_key (v : value) (k : str) : bool :=
  match v with
  | VDict d => match dict_get k d with Some _ => true | None => false end
  | _ => false
  end.

(** The success marker each probe looks for in the reply to its request. *)
Definition marker (svc : str) (rep : reply) : bool :=
  let code := fst (parsed rep) in
  let js := snd (parsed rep) in
  if mem svc [U "geocode"; U "placedetails"] then eq_str (field js (U "status")) (U "OK")
  else if str_eqb svc (U "batchgeocode") then code_is code 200
  else if mem svc [U "staticmap"; U "streetview"] then
    match rep with Response r => status_code r =? 200 | Unreachable => false end
  else if str_eqb svc (U "photoreference") then
    has_key (first (field js (U "candidates"))) (U "photos")
  else if mem svc [U "textsearch"; U "nearbysearch"; U "elevation"] then
    truthy (field js (U "results"))
  else if str_eqb svc (U "distancematrix") then
    has_key (first (field (first (field js (U "rows"))) (U "elements"))) (U "distance")
  else if str_eqb svc (U "timezone") then truthy (field js (U "timeZoneId"))
  else if str_eqb svc (U "autocomplete") then truthy (field js (U "predictions"))
  else if mem svc [U "snaptoroads"; U "nearestroads"] then
    truthy (field js (U "snappedPoints"))
  else if str_eqb svc (U "geolocate") then
    negb (is_none (field (field js (U "location")) (U "lat")))
  else false.

Section Requests.
Context `{PyLib} (w : world) (key place : str) (out_root : path).

Definition get_request (u : str) (ps : list (str * value)) : request :=
  {| meth := U "get"; url := u; params := ps; files := []; json := None |}.

(** The request the probe of [svc] sends when the locals hold [g] and [p]. *)
Definition request_of (g p : value) (svc : str) : request :=
  if str_eqb svc (U "geocode") then
    get_request (U "https://maps.googleapis.com/maps/api/geocode/json")
      [(U "address", VStr place); (U "key", VStr key)]
  else if str_eqb svc (U "batchgeocode") then
    {| meth := U "post";
       url := U "https://maps.googleapis.com/maps/api/geocode/batch/json";
       params := [(U "key", VStr key)];
       files := [(U "file", Csv [[U "address"]; [place]])];
       json := None |}
  else if str_eqb svc (U "staticmap") then
    get_request (U "https://maps.googleapis.com/maps/api/staticmap")
      [(U "center", g); (U "zoom", VInt 7); (U "size", VStr (U "400x400"));
       (U "key", VStr key)]
  else if str_eqb svc (U "streetview") then
    get_request (U "https://maps.googleapis.com/maps/api/streetview")
      [(U "location", g); (U "size", VStr (U "400x400")); (U "key", VStr key)]
  else if str_eqb svc (U "photoreference") then
    get_request (U "https://maps.googleapis.com/maps/api/place/findplacefromtext/json")
      [(U "input", VStr place); (U "inputtype", VStr (U "textquery"));
       (U "fields", VStr (U "photos")); (U "key", VStr key)]
  else if str_eqb svc (U "placedetails") then
    get_request (U "https://maps.googleapis.com/maps/api/place/details/json")
      [(U "place_id", p); (U "key", VStr key)]
  else if str_eqb svc (U "textsearch") then
    get_request (U "https://maps.googleapis.com/maps/api/place/textsearch/json")
      [(U "query", VStr place); (U "key", VStr key)]
  else if str_eqb svc (U "distancematrix") then
    get_request (U "https://maps.googleapis.com/maps/api/distancematrix/json")
      [(U "origins", g); (U "destinations", g); (U "key", VStr key)]
  else if str_eqb svc (U "elevation") then
    get_request (U "https://maps.googleapis.com/maps/api/elevation/json")
      [(U "locations", g); (U "key", VStr key)]
  else if str_eqb svc (U "timezone") then
    get_request (U "https://maps.googleapis.com/maps/api/timezone/json")
      [(U "location", g); (U "timestamp", VInt (clock w)); (U "key", VStr key)]
  else if str_eqb svc (U "nearbysearch") then
    get_request (U "https://maps.googleapis.com/maps/api/place/nearbysearch/json")
      [(U "location", g); (U "radius", VInt 1000);
       (U "type", VStr (U "restaurant")); (U "key", VStr key)]
  else if str_eqb svc (U "autocomplete") then
    get_request (U "https://maps.googleapis.com/maps/api/place/autocomplete/json")
      [(U "input", VStr (hd [] (split place))); (U "types", VStr (U "geocode"));
       (U "key", VStr key)]
  else if str_eqb svc (U "snaptoroads") then
    get_request (U "https://roads.googleapis.com/v1/snapToRoads")
      [(U "path", VStr (py_str g ++ U "|" ++ py_str g));
       (U "interpolate", VBool true); (U "key", VStr key)]
  else if str_eqb svc (U "nearestroads") then
    get_request (U "https://roads.googleapis.com/v1/nearestRoads")
      [(U "points", g); (U "key", VStr key)]
  else
    {| meth := U "post";
       url := U "https://www.googleapis.com/geolocation/v1/geolocate";
       params := [(U "key", VStr key)];
       files := [];
       json := Some (VDict [(U "considerIp", VBool true)]) |}.

(** The URL of the endpoint of [svc]. *)
Definition endpoint (svc : str) : str := url (request_of VNone VNone svc).

(** The file the probe of [svc] may write, if any. *)
Definition file_of (svc : str) : option path :=
  if str_eqb svc (U "batchgeocode") then Some (out_root ++ [U "batch.csv"])
  else if str_eqb svc (U "staticmap") then Some (out_root ++ [U "staticmap.png"])
  else if str_eqb svc (U "streetview") then Some (out_root ++ [U "streetview.jpg"])
  else None.

(** What one turn of the loop may do: [svc] is the service, [c] and [s] the
    locals and the state before, [s'] the state after and [r] how the turn
    ended. *)
Definition step_spec (svc : str) (c : ctx) (s s' : io) (r : result ctx) : Prop :=
  let q := request_of (geo c) (pid c) svc in
  let rep := server w (length (net s)) q in
  (net s' = net s ++ [q] \/ (net s' = net s /\ exists e, r = Raise e)) /\
  (fs s' = fs s \/
   exists p f, file_of svc = Some p /\ fs s' = <[p := f]> (fs s) /\
     (svc = U "batchgeocode" \/
      (net s' = net s ++ [q] /\
       exists resp, rep = Response resp /\ status_code resp = 200))) /\
  out s' = out s /\ inp s' = inp s /\
  forall c', r = Ok c' ->
    net s' = net s ++ [q] /\
    (svc <> U "geocode" -> geo c' = geo c /\ pid c' = pid c) /\
    ((results c' = results c /\ svc <> U "batchgeocode" /\ svc <> U "geolocate") \/
     exists o, results c' = dict_set svc o (results c) /\
       (marker svc rep = true \/ svc = U "batchgeocode" \/ svc = U "geolocate")).

(** What a request to one of the endpoints that take a position, or to
    Place Details, carries when the locals hold [g] and [p]. *)
Definition carries (g p : value) (q : request) : Prop :=
  (url q = endpoint (U "staticmap") -> dict_get (U "center") (params q) = Some g) /\
  (url q = endpoint (U "streetview") -> dict_get (U "location") (params q) = Some g) /\
  (url q = endpoint (U "distancematrix") ->
     dict_get (U "origins") (params q) = Some g /\
     dict_get (U "destinations") (params q) = Some g) /\
  (url q = endpoint (U "elevation") -> dict_get (U "locations") (params q) = Some g) /\
  (url q = endpoint (U "timezone") -> dict_get (U "location") (params q) = Some g) /\
  (url q = endpoint (U "nearbysearch") -> dict_get (U "location") (params q) = Some g) /\
  (url q = endpoint (U "placedetails") ->
     params q = [(U "place_id", p); (U "key", VStr key)]).

(** Among the requests sent from the [n0]-th on, one went to the endpoint of
    [svc] and its reply bears the marker. *)
Definition backed (n0 : nat) (s : io) (svc : str) : Prop :=
  exists i q, (n0 <= i)%nat /\ net s !! i = Some q /\ url q = endpoint svc /\
              marker svc (server w i q) = true.



Definition batch_csv : path := out_root ++ [U "batch.csv"].

End Requests.

(** ** Worlds and inputs of the examples *)

(** A stand-in for the libraries, enough for the examples: the digests of
    the keys they use, [int] on decimal digits; [repr] and [json.dumps] are
    not reached by them. *)
Definition digits_value (s : str) : option Z :=
  match s with
  | [] => None
  | _ =>
      fold_left (fun acc c =>
        match acc with
        | Some n => if ((48 <=? c) && (c <=? 57))%N then Some (10 * n + Z.of_N (c - 48)) else None
        | None => None
        end) s (Some 0)
  end.

Definition example_lib : PyLib := {|
  sha1_hexdigest := fun k =>
    if str_eqb k (U "abc") then U "a9993e364706816aba3e25717850c26c9cd0d89d"
    else if str_eqb k (U "ABCD1234WXYZ") then U "19c6eda8e34df4702c83fa24ea02109c939d80b4"
    else if str_eqb k (U "AIzaFAKEKEY1234567890") then U "1b47227bda7f26561c9f8f7a114991e055b0ad07"
    else U "13fbd79c3d390e5d6585a21e11ff5ec1970cff0c";
  py_repr := fun _ => U "...";
  py_int := digits_value;
  json_dumps_lines := fun _ => [U "..."]
|}.

Definition example_key : str := U "AIzaFAKEKEY1234567890".
Definition example_place : str := U "1600 Amphitheatre Parkway".
Definition example_root : path := [U "output"; U "1b47227b"].

Definition json_reply (code : Z) (js : value) : reply :=
  Response {| status_code := code; body := Some js; content := []; headers := [] |}.

(** No network at all. *)
Definition world_offline : world :=
  {| server := fun _ _ => Unreachable; disk := fun _ => DiskOk; clock := 1700000000 |}.

(** Every endpoint refuses the key. *)
Definition world_denied : world :=
  {| server := fun _ _ =>
       json_reply 403 (VDict [(U "status", VStr (U "REQUEST_DENIED"))]);
     disk := fun _ => DiskOk;
     clock := 1700000000 |}.

Definition geocode_ok : value :=
  VDict [(U "status", VStr (U "OK"));
         (U "results", VList [VDict
            [(U "formatted_address", VStr (U "1600 Amphitheatre Pkwy, Mountain View, CA"));
             (U "geometry", VDict [(U "location",
                VDict [(U "lat", VInt 37); (U "lng", VInt (-122))])]);
             (U "place_id", VStr (U "ChIJj61dQgK6j4AR4GeTYWZsKWw"))]])].

(** The geocoder answers; every later request fails in transport. *)
Definition world_geocoded : world :=
  {| server := fun n _ =>
       match n with
       | O => json_reply 200 geocode_ok
       | _ => Unreachable
       end;
     disk := fun _ => DiskOk;
     clock := 1700000000 |}.

(** The geocoder answers "OK" with an empty list of results. *)
Definition world_no_results : world :=
  {| server := fun _ _ =>
       json_reply 200 (VDict [(U "status", VStr (U "OK")); (U "results", VList [])]);
     disk := fun _ => DiskOk;
     clock := 1700000000 |}.


(** The locals after the geocoder has answered [geocode_ok]. *)
Definition geocoded_ctx : ctx :=
  {| results :=
       [(U "geocode",
         {| http := Some 200;
            info := VStr (U "1600 Amphitheatre Pkwy, Mountain View, CA");
            raw := geocode_ok |})];
     geo := VStr (U "37,-122");
     pid := VStr (U "ChIJj61dQgK6j4AR4GeTYWZsKWw") |}.

Definition denied_body : value := VDict [(U "status", VStr (U "REQUEST_DENIED"))].

(** What [test_key_place] returns when every endpoint refuses the key. *)
Definition denied_results : list (str * outcome) :=
  [(U "batchgeocode",
    {| http := Some 403; info := VStr (U "REQUEST_DENIED"); raw := denied_body |});
   (U "geolocate",
    {| http := Some 403; info := VStr (U "REQUEST_DENIED"); raw := denied_body |})].


(** The runs of the examples: one key, one place, nothing sent or written
    before. *)
Definition example_run (w : world) : io * result (list (str * outcome)) :=
  @test_key_place example_lib w example_key example_place example_root (io0 []).

Definition example_geocode (w : world) : io * result ctx :=
  @probe_geocode example_lib w example_key example_place ctx0 (io0 []).

Definition example_main (w : world) : io * result unit :=
  @main example_lib w (io0 [example_key; example_place]).

(** * Properties *)

Arguments U : simpl never.

(** Comparisons of two literals are evaluated; tables indexed by a literal
    service name are reduced to their row. *)
Ltac lits :=
  repeat match goal with
  | |- context [str_eqb (U ?a) (U ?b)] =>
      let v := eval vm_compute in (str_eqb (U a) (U b)) in
      change (str_eqb (U a) (U b)) with v
  end.
Ltac lit_neq := let E := fresh in intros E; vm_compute in E; discriminate E.
Ltac table f :=
  unfold f; unfold coord_services, place_services; cbn [mem existsb]; lits;
  cbn [orb andb]; cbv iota.

(** ** Strings and dicts *)

Lemma str_eqb_eq (a b : str) : str_eqb a b = true <-> a = b.
Proof.
  revert b. induction a as [|x a IH]; intros [|y b]; simpl; try (split; congruence).
  rewrite andb_true_iff, N.eqb_eq, IH. split; [intros [-> ->]; reflexivity | intros [= -> ->]; auto].
Qed.

Lemma str_eqb_refl (a : str) : str_eqb a a = true.
Proof. apply str_eqb_eq. reflexivity. Qed.

Lemma str_eqb_neq (a b : str) : a <> b -> str_eqb a b = false.
Proof. intros Hne. destruct (str_eqb a b) eqn:E; [|reflexivity]. apply str_eqb_eq in E. contradiction. Qed.

Lemma dict_get_set_eq {V} (k : str) (v : V) d : dict_get k (dict_set k v d) = Some v.
Proof.
  induction d as [|[k' v'] d IH]; simpl.
  - rewrite str_eqb_refl. reflexivity.
  - destruct (str_eqb k k') eqn:E; simpl.
    + rewrite str_eqb_refl. reflexivity.
    + rewrite E. exact IH.
Qed.

Lemma dict_get_set_ne {V} (k k' : str) (v : V) d :
  k <> k' -> dict_get k' (dict_set k v d) = dict_get k' d.
Proof.
  intros Hne. induction d as [|[k0 v0] d IH]; simpl.
  - rewrite str_eqb_neq by congruence. reflexivity.
  - destruct (str_eqb k k0) eqn:E; simpl.
    + apply str_eqb_eq in E. subst k0. rewrite str_eqb_neq by congruence. reflexivity.
    + destruct (str_eqb k' k0); [reflexivity | exact IH].
Qed.



Lemma starts_with_refl_app a post : starts_with a (a ++ post) = true.
Proof. induction a as [|x a IH]; [reflexivity|]. cbn. rewrite N.eqb_refl. exact IH. Qed.

Lemma app_str_in pre a post : str_in a (pre ++ a ++ post) = true.
Proof.
  induction pre as [|y pre IH]; cbn [app str_in].
  - assert (forall b, starts_with a b = true -> str_in a b = true) as Hs.
    { intros [|y b] Hb; cbn [str_in]; rewrite Hb; reflexivity. }
    apply Hs, starts_with_refl_app.
  - rewrite IH. apply orb_true_r.
Qed.

Lemma lstrip_nil s : lstrip s = [] <-> Forall (fun c => is_space c = true) s.
Proof.
  induction s as [|c s IH]; cbn [lstrip].
  - split; auto.
  - destruct (is_space c) eqn:E.
    + rewrite IH. split; [intros Hs; constructor; auto | intros Hs; inversion Hs; auto].
    + split; [discriminate | intros Hs; inversion Hs; congruence].
Qed.

Lemma lstrip_suffix s : exists pre, s = pre ++ lstrip s.
Proof.
  induction s as [|c s [pre IH]]; cbn [lstrip].
  - exists []. reflexivity.
  - destruct (is_space c).
    + exists (c :: pre). cbn. congruence.
    + exists []. reflexivity.
Qed.

Lemma all_space_dec s :
  Forall (fun c => is_space c = true) s \/ Exists (fun c => is_space c = false) s.
Proof.
  induction s as [|c s [IH|IH]]; [left; constructor | |right; right; exact IH].
  destruct (is_space c) eqn:E; [left; constructor; auto | right; left; exact E].
Qed.

Lemma strip_nonspace s :
  strip s <> [] -> Exists (fun c => is_space c = false) s.
Proof.
  unfold strip, rstrip. intros Hs.
  destruct (all_space_dec s) as [Hall|Hex]; [|exact Hex].
  exfalso. apply Hs. apply lstrip_nil.
  apply List.Forall_forall. intros c Hc. rewrite List.Forall_forall in Hall. apply Hall.
  apply in_rev in Hc. destruct (lstrip_suffix (rev s)) as [pre Hp].
  apply in_rev. rewrite Hp. apply in_or_app. right. exact Hc.
Qed.

(** The first token of [split]. *)
Lemma split_first s :
  Exists (fun c => is_space c = false) s ->
  exists pre tok post rest,
    s = pre ++ tok ++ post /\
    Forall (fun c => is_space c = true) pre /\
    tok <> [] /\
    Forall (fun c => is_space c = false) tok /\
    (post = [] \/ exists c post', post = c :: post' /\ is_space c = true) /\
    split s = tok :: rest.
Proof.
  induction s as [|c s IH]; intros Hex; [inversion Hex|].
  cbn [split]. destruct (is_space c) eqn:Ec.
  - assert (Exists (fun c => is_space c = false) s) as Hs.
    { inversion Hex; subst; [congruence | assumption]. }
    destruct (IH Hs) as (pre & tok & post & rest & -> & Hpre & Htok & Hall & Hpost & Hsp).
    exists (c :: pre), tok, post, rest. repeat split; auto.
  - destruct s as [|d s'].
    + exists [], [c], [], []. repeat split; auto; discriminate.
    + destruct (is_space d) eqn:Ed.
      * exists [], [c], (d :: s'), (split (d :: s')). repeat split; auto; try discriminate.
        right. eauto.
      * assert (Exists (fun c => is_space c = false) (d :: s')) as Hs by (left; exact Ed).
        destruct (IH Hs) as (pre & tok & post & rest & Heq & Hpre & Htok & Hall & Hpost & Hsp).
        destruct pre as [|x pre].
        -- cbn [app] in Heq. rewrite Hsp.
           exists [], (c :: tok), post, rest. rewrite Heq. repeat split; auto; discriminate.
        -- cbn [app] in Heq. injection Heq as <- _. inversion Hpre; congruence.
Qed.

Lemma split_no_space s :
  Forall (fun c => is_space c = false) s -> s <> [] -> split s = [s].
Proof.
  induction s as [|c s IH]; intros Hall Hne; [contradiction|].
  inversion Hall as [|? ? Hc Hs]; subst. cbn [split]. rewrite Hc.
  destruct s as [|d s']; [reflexivity|].
  inversion Hs as [|? ? Hd _]; subst. rewrite Hd.
  rewrite (IH Hs) by discriminate. reflexivity.
Qed.




(** ** Values *)





(** ** [fetch_json], [fetch_image] and the probes, one by one *)

Section FetchFacts.
Context `{PyLib} (w : world).

Lemma fetch_json_eq m u ps fl j s :
  fetch_json w m u ps fl j s =
  let q := {| meth := m; url := u; params := ps; files := fl; json := j |} in
  (sent q s, Ok (parsed (server w (length (net s)) q))).
Proof.
  unfold fetch_json, try_except, bind, session_request, lift, response_json, ret, parsed, sent.
  simpl. destruct (server w _ _) as [|r]; [reflexivity|].
  destruct (body r); reflexivity.
Qed.

Lemma fetch_image_eq u ps dest s :
  fetch_image w u ps dest s =
  let q := get_request u ps in
  let rep := server w (length (net s)) q in
  (image_stored rep (disk w dest) dest (sent q s), Ok (image_fetched rep (disk w dest))).
Proof.
  unfold fetch_image, try_except, bind, session_request, write_file, ret,
    image_stored, image_fetched, get_request, sent, stored.
  simpl. destruct (server w _ _) as [|r]; [reflexivity|].
  destruct (status_code r =? 200); [|reflexivity].
  destruct (disk w dest); reflexivity.
Qed.


Lemma get_field js k v : get js k VNone = Ok v -> field js k = v.
Proof. destruct js; simpl; congruence. Qed.

Lemma get_field_truthy js k d v :
  get js k d = Ok v -> truthy d = false -> truthy v = true -> field js k = v.
Proof.
  destruct js as [| | | | | |dd]; simpl; try congruence. intros Hg Hd Hv.
  injection Hg as <-. destruct (dict_get k dd); simpl in *; congruence.
Qed.

Lemma item0_first l d : item0 l = Ok (VDict d) -> first l = VDict d.
Proof.
  destruct l as [| | | |s|l|]; simpl; try congruence.
  - destruct s; congruence.
  - destruct l; congruence.
Qed.

Lemma len_truthy v n : len v = Ok n -> negb (n =? 0) = true -> truthy v = true.
Proof.
  destruct v as [| | | |l|l|l]; simpl; try congruence;
    destruct l; try reflexivity; intros [= <-]; discriminate.
Qed.

Lemma item_has_key v k x : item v k = Ok x -> has_key v k = true /\ exists d, v = VDict d.
Proof.
  destruct v; simpl; try congruence.
  destruct (dict_get k d); [eauto | congruence].
Qed.

Section ProbeFacts.
Variables (key place : str) (out_root : path).

Ltac json_probe p :=
  unfold p; unfold bind at 1; rewrite fetch_json_eq; cbv zeta;
  unfold step_spec; table request_of; unfold get_request.


Ltac use_get :=
  repeat match goal with
  | Hg : get ?js ?k VNone = Ok ?v |- context [field ?js ?k] =>
      rewrite (get_field js k v Hg)
  | Hg : get ?js ?k ?d = Ok ?v, Ht : truthy ?v = true |- context [field ?js ?k] =>
      rewrite (get_field_truthy js k d v Hg eq_refl Ht)
  end.

Ltac finish :=
  intros; simplify_eq; cbn [set_result results geo pid net fs out inp sent stored fst snd];
  repeat match goal with
  | |- _ /\ _ => split
  | |- forall _, _ =>
      intro; simplify_eq; cbn [set_result results geo pid net fs out inp sent stored fst snd]
  | |- _ = _ => reflexivity
  end;
  try solve [ left; reflexivity
            | left; split; [reflexivity | split; lit_neq]
            | right; split; [reflexivity | eexists; reflexivity]
            | right; eexists; split; [reflexivity|];
              first [ left; use_get; first [assumption | reflexivity]
                    | right; left; reflexivity
                    | right; right; reflexivity ] ].

Ltac json_spec p :=
  json_probe p; table marker; table file_of;
  destruct (parsed _) as [code js] eqn:E;
  unfold bind, lift, ret;
  repeat case_match; finish.

Lemma spec_textsearch c s s' r :
  probe_textsearch w key place c s = (s', r) ->
  step_spec w key place out_root (U "textsearch") c s s' r.
Proof. json_spec (@probe_textsearch). Qed.

Lemma spec_placedetails c s s' r :
  probe_placedetails w key c s = (s', r) ->
  step_spec w key place out_root (U "placedetails") c s s' r.
Proof. json_spec (@probe_placedetails). Qed.

Lemma spec_elevation c s s' r :
  probe_elevation w key c s = (s', r) ->
  step_spec w key place out_root (U "elevation") c s s' r.
Proof. json_spec (@probe_elevation). Qed.

Lemma spec_timezone c s s' r :
  probe_timezone w key c s = (s', r) ->
  step_spec w key place out_root (U "timezone") c s s' r.
Proof. json_spec (@probe_timezone). Qed.

Lemma spec_nearbysearch c s s' r :
  probe_nearbysearch w key c s = (s', r) ->
  step_spec w key place out_root (U "nearbysearch") c s s' r.
Proof. json_spec (@probe_nearbysearch). Qed.

Lemma spec_geolocate c s s' r :
  probe_geolocate w key c s = (s', r) ->
  step_spec w key place out_root (U "geolocate") c s s' r.
Proof. json_spec (@probe_geolocate). Qed.

Lemma spec_snaptoroads c s s' r :
  probe_snaptoroads w key c s = (s', r) ->
  step_spec w key place out_root (U "snaptoroads") c s s' r.
Proof.
  json_spec (@probe_snaptoroads).
  right. eexists. split; [reflexivity|]. left.
  rewrite (get_field_truthy _ _ _ _ H0 eq_refl (len_truthy _ _ H1 H2)).
  eapply len_truthy; eauto.
Qed.

Lemma spec_nearestroads c s s' r :
  probe_nearestroads w key c s = (s', r) ->
  step_spec w key place out_root (U "nearestroads") c s s' r.
Proof.
  json_spec (@probe_nearestroads).
  right. eexists. split; [reflexivity|]. left.
  rewrite (get_field_truthy _ _ _ _ H0 eq_refl (len_truthy _ _ H1 H2)).
  eapply len_truthy; eauto.
Qed.


Lemma spec_photoreference c s s' r :
  probe_photoreference w key place c s = (s', r) ->
  step_spec w key place out_root (U "photoreference") c s s' r.
Proof.
  json_spec (@probe_photoreference).
  right. eexists. split; [reflexivity|]. left.
  destruct (item_has_key _ _ _ H5) as [Hk [d ->]].
  rewrite (get_field_truthy _ _ _ _ H0 eq_refl H2), (item0_first _ _ H4). exact Hk.
Qed.


Lemma spec_distancematrix c s s' r :
  probe_distancematrix w key c s = (s', r) ->
  step_spec w key place out_root (U "distancematrix") c s s' r.
Proof.
  json_spec (@probe_distancematrix).
  right. eexists. split; [reflexivity|]. left.
  destruct (item_has_key _ _ _ H9) as [Hk [d ->]].
  destruct (item_has_key _ _ _ H5) as [_ [d1 ->]].
  rewrite (get_field_truthy _ _ _ _ H0 eq_refl H2), (item0_first _ _ H4).
  unfold field. unfold item in H5. destruct (dict_get (U "elements") d1); [|discriminate].
  simplify_eq. cbn [default from_option id]. rewrite (item0_first _ _ H6). exact Hk.
Qed.



Lemma spec_geocode c s s' r :
  probe_geocode w key place c s = (s', r) ->
  step_spec w key place out_root (U "geocode") c s s' r.
Proof. json_spec (@probe_geocode). Qed.

Lemma spec_autocomplete c s s' r :
  probe_autocomplete w key place c s = (s', r) ->
  step_spec w key place out_root (U "autocomplete") c s s' r.
Proof.
  unfold probe_autocomplete, step_spec. table (@request_of). table marker. table file_of.
  unfold get_request. unfold bind at 1. unfold lift at 1.
  destruct (split place) as [|tok rest]; cbn [hd].
  - finish.
  - unfold bind at 1. rewrite fetch_json_eq. cbv zeta.
    destruct (parsed _) as [code js] eqn:E.
    unfold bind, lift, ret. repeat case_match; finish.
Qed.


Lemma spec_batchgeocode c s s' r :
  probe_batchgeocode w key place out_root c s = (s', r) ->
  step_spec w key place out_root (U "batchgeocode") c s s' r.
Proof.
  unfold probe_batchgeocode, step_spec. table (@request_of). table marker. table file_of.
  cbv zeta. unfold bind at 1. unfold write_file.
  destruct (disk w _).
  - unfold bind at 1. unfold read_file. cbn [fs]. rewrite lookup_insert_eq.
    unfold bind at 1. rewrite fetch_json_eq. cbv zeta. cbn [net].
    destruct (parsed _) as [code js] eqn:E.
    unfold bind, lift, ret. repeat case_match; finish.
    all: try solve [right; do 2 eexists; split; [reflexivity|]; split; [reflexivity|]; left; reflexivity].
  - finish.
  - finish. right; do 2 eexists; split; [reflexivity|]; split; [reflexivity|]; left; reflexivity.
Qed.

Ltac image_spec p :=
  unfold p, step_spec; table (@request_of); table marker; table file_of;
  cbv zeta; unfold bind at 1; rewrite fetch_image_eq; cbv zeta;
  unfold image_stored, image_fetched, get_request;
  destruct (server w _ _) as [|resp] eqn:E;
  [ | destruct (status_code resp =? 200) eqn:E200;
      [ apply Z.eqb_eq in E200; destruct (disk w _) | ] ];
  unfold bind, lift, ret; repeat case_match; finish;
  try solve [right; do 2 eexists; split; [reflexivity|]; split; [reflexivity|];
             right; split; [reflexivity | eexists; split; [reflexivity | assumption]]].

Lemma spec_staticmap c s s' r :
  probe_staticmap w key out_root c s = (s', r) ->
  step_spec w key place out_root (U "staticmap") c s s' r.
Proof. image_spec (@probe_staticmap). Qed.

Lemma spec_streetview c s s' r :
  probe_streetview w key out_root c s = (s', r) ->
  step_spec w key place out_root (U "streetview") c s s' r.
Proof. image_spec (@probe_streetview). Qed.


Lemma gate_false_body c svc :
  In svc SERVICES -> gate (geo c) (pid c) svc = false ->
  loop_body w key place out_root svc c = ret c.
Proof.
  intros Hin. unfold SERVICES in Hin. cbn [In] in Hin.
  repeat destruct Hin as [<-|Hin]; try contradiction; table gate;
    try discriminate; intros Hg; unfold loop_body; lits; cbn [andb]; cbv iota;
    rewrite Hg; reflexivity.
Qed.

Lemma loop_body_spec svc c s s' r :
  In svc SERVICES ->
  gate (geo c) (pid c) svc = true ->
  loop_body w key place out_root svc c s = (s', r) ->
  step_spec w key place out_root svc c s s' r.
Proof.
  intros Hin. unfold SERVICES in Hin. cbn [In] in Hin.
  repeat destruct Hin as [<-|Hin]; try contradiction; table gate;
    intros Hg; unfold loop_body; lits; cbn [andb]; cbv iota; rewrite ?Hg.
  - apply spec_geocode.
  - apply spec_batchgeocode.
  - apply spec_staticmap.
  - apply spec_streetview.
  - apply spec_photoreference.
  - apply spec_placedetails.
  - apply spec_textsearch.
  - apply spec_distancematrix.
  - apply spec_elevation.
  - apply spec_timezone.
  - apply spec_nearbysearch.
  - apply spec_autocomplete.
  - apply spec_snaptoroads.
  - apply spec_nearestroads.
  - apply spec_geolocate.
Qed.

End ProbeFacts.
End FetchFacts.

(** ** The loop *)

Lemma mem_In x l : mem x l = true <-> In x l.
Proof.
  unfold mem. rewrite existsb_exists. split.
  - intros [y [Hy E]]. apply str_eqb_eq in E. subst. exact Hy.
  - intros Hx. exists x. split; [exact Hx | apply str_eqb_refl].
Qed.

Section Loop.
Context `{PyLib} (w : world) (key place : str) (out_root : path).

Abbreviation body := (loop_body w key place out_root).
Abbreviation rq := (request_of w key place).

Lemma url_request_of g p svc : url (rq g p svc) = endpoint w key place svc.
Proof. unfold endpoint, request_of. repeat case_match; reflexivity. Qed.

Lemma endpoint_inj a b :
  In a SERVICES -> In b SERVICES ->
  endpoint w key place a = endpoint w key place b -> a = b.
Proof.
  unfold SERVICES. cbn [In]. intros Ha Hb.
  repeat destruct Ha as [<-|Ha]; try contradiction;
    repeat destruct Hb as [<-|Hb]; try contradiction;
    first [reflexivity | lit_neq].
Qed.

Lemma for_each_inv (I : ctx -> io -> Prop) (J : io -> Prop) xs :
  (forall x, In x xs -> In x SERVICES) ->
  (forall svc c s s' r, In svc xs -> I c s ->
     gate (geo c) (pid c) svc = true ->
     step_spec w key place out_root svc c s s' r ->
     match r with Ok c' => I c' s' | Raise _ => J s' end) ->
  forall c s s' r, I c s -> for_each xs body c s = (s', r) ->
  match r with Ok c' => I c' s' | Raise _ => J s' end.
Proof.
  induction xs as [|x xs IH]; intros Hsub Hstep c s s' r HI Hrun.
  - injection Hrun as <- <-. exact HI.
  - cbn [for_each] in Hrun. unfold bind in Hrun.
    destruct (body x c s) as [s1 [c1|e]] eqn:Hx.
    + assert (I c1 s1) as HI1.
      { destruct (gate (geo c) (pid c) x) eqn:Hg.
        - apply (Hstep x c s s1 (Ok c1)); auto using in_eq.
          apply loop_body_spec; auto using in_eq.
        - rewrite gate_false_body in Hx by auto using in_eq.
          injection Hx as <- <-. exact HI. }
      apply (IH (fun y Hy => Hsub y (in_cons _ _ _ Hy))
                (fun svc c0 s0 s0' r0 Hin => Hstep svc c0 s0 s0' r0 (in_cons _ _ _ Hin))
                c1 s1 s' r HI1 Hrun).
    + injection Hrun as <- <-.
      destruct (gate (geo c) (pid c) x) eqn:Hg.
      * apply (Hstep x c s s1 (Raise e)); auto using in_eq.
        apply loop_body_spec; auto using in_eq.
      * rewrite gate_false_body in Hx by auto using in_eq. discriminate Hx.
Qed.

Lemma run_log xs : 
  (forall x, In x xs -> In x SERVICES /\ x <> U "geocode") ->
  forall c s s' r, for_each xs body c s = (s', r) ->
  exists done rest,
    net s' = net s ++ map (rq (geo c) (pid c)) done /\
    List.filter (gate (geo c) (pid c)) xs = done ++ rest /\
    forall c', r = Ok c' -> rest = [] /\ geo c' = geo c /\ pid c' = pid c.
Proof.
  induction xs as [|x xs IH]; intros Hsub c s s' r Hrun.
  - injection Hrun as <- <-. exists [], []. cbn. rewrite app_nil_r.
    split; [reflexivity | split; [reflexivity|]]. intros c' [= <-]. auto.
  - cbn [for_each] in Hrun. unfold bind in Hrun. cbn [List.filter].
    destruct (Hsub x (in_eq _ _)) as [Hx Hne].
    destruct (gate (geo c) (pid c) x) eqn:Hg.
    + destruct (body x c s) as [s1 [c1|e]] eqn:Hb;
        apply loop_body_spec in Hb; auto;
        destruct Hb as (Hnet & _ & _ & _ & Hok).
      * destruct (Hok c1 eq_refl) as (Hn1 & Hgp & _).
        destruct (Hgp Hne) as [Eg Ep].
        destruct (IH (fun y Hy => Hsub y (in_cons _ _ _ Hy)) c1 s1 s' r Hrun)
          as (done & rest & Hn & Hf & Hr).
        rewrite Eg, Ep in Hn, Hf, Hr.
        exists (x :: done), rest. split; [|split].
        -- rewrite Hn, Hn1. cbn [map]. rewrite <- app_assoc. reflexivity.
        -- rewrite Hf. reflexivity.
        -- exact Hr.
      * injection Hrun as <- <-.
        destruct Hnet as [Hn|[Hn _]].
        -- exists [x], (List.filter (gate (geo c) (pid c)) xs).
           split; [exact Hn | split; [reflexivity | discriminate]].
        -- exists [], (x :: List.filter (gate (geo c) (pid c)) xs).
           cbn. rewrite app_nil_r.
           split; [exact Hn | split; [reflexivity | discriminate]].
    + rewrite gate_false_body in Hrun by auto.
      apply (IH (fun y Hy => Hsub y (in_cons _ _ _ Hy)) c s s' r Hrun).
Qed.

End Loop.

(** ** Claims about one function *)

Section Mask.
Context `{PyLib}.


(** A key of at most four characters is its own first four characters:
    the display starts with the whole key. *)
Lemma short_key_in_mask key :
  (length key <= 4)%nat -> str_in key (mask_key key) = true.
Proof.
  intros Hlen. unfold mask_key, slice_to. rewrite take_ge by lia.
  apply (app_str_in [] key).
Qed.


End Mask.

Section ProbeClaims.
Context `{PyLib} (w : world).

(** Claim C8. Whatever the server and the disk do, [fetch_json] and
    [fetch_image] return and never raise: when the transport raises, or the
    body of the reply is not JSON, [fetch_json] returns [(None, {})], and
    otherwise the status and the parsed body; when the transport or the
    write raises, [fetch_image] returns [(False, None, {})], and otherwise
    the flag, the status and the headers. *)
Theorem fetch_never_raises m u ps fl j dest s :
  (exists s' v, fetch_json w m u ps fl j s = (s', Ok v) /\
     match server w (length (net s))
             {| meth := m; url := u; params := ps; files := fl; json := j |} with
     | Unreachable => v = (None, VDict [])
     | Response r =>
         match body r with
         | None => v = (None, VDict [])
         | Some js => v = (Some (status_code r), js)
         end
     end) /\
  (exists s' v, fetch_image w u ps dest s = (s', Ok v) /\
     match server w (length (net s)) (get_request u ps) with
     | Unreachable => v = (false, None, [])
     | Response r =>
         if status_code r =? 200 then
           match disk w dest with
           | DiskOk => v = (true, Some (status_code r), headers r)
           | _ => v = (false, None, [])
           end
         else v = (false, Some (status_code r), headers r)
     end).
Proof.
  split.
  - rewrite fetch_json_eq. cbv zeta. do 2 eexists. split; [reflexivity|].
    unfold parsed. destruct (server w _ _) as [|r]; [reflexivity|].
    destruct (body r); reflexivity.
  - rewrite fetch_image_eq. cbv zeta. do 2 eexists. split; [reflexivity|].
    unfold image_fetched. destruct (server w _ _) as [|r]; [reflexivity|].
    destruct (status_code r =? 200); [|reflexivity].
    destruct (disk w dest); reflexivity.
Qed.

Section OneProbe.
Variables (key place : str) (out_root : path).

(** Claim C10. When the place is not empty after stripping whitespace,
    [place.split()] has a first element, so [place.split()[0]] does not
    raise: it is the first maximal run of non-whitespace characters of the
    place, it is the whole place only when the place has no whitespace, and
    it is what the autocomplete probe sends as [input]; the probe does not
    end in an IndexError. *)
Theorem autocomplete_first_token :
  strip place <> [] ->
  exists pre tok post rest,
    split place = tok :: rest /\
    place = pre ++ tok ++ post /\
    Forall (fun c => is_space c = true) pre /\
    tok <> [] /\
    Forall (fun c => is_space c = false) tok /\
    (post = [] \/ exists c post', post = c :: post' /\ is_space c = true) /\
    (tok = place <-> Forall (fun c => is_space c = false) place) /\
    forall c s, exists r,
      probe_autocomplete w key place c s =
      (sent (get_request (U "https://maps.googleapis.com/maps/api/place/autocomplete/json")
               [(U "input", VStr tok); (U "types", VStr (U "geocode"));
                (U "key", VStr key)]) s, r) /\
      r <> Raise IndexError.
Proof.
  intros Hs. apply strip_nonspace in Hs.
  destruct (split_first place Hs) as (pre & tok & post & rest & Heq & Hpre & Htok & Hall & Hpost & Hsp).
  exists pre, tok, post, rest. repeat split; auto.
  - intros <-. exact Hall.
  - intros Hp. rewrite split_no_space in Hsp; [congruence | exact Hp |].
    intros ->. destruct pre, tok; try discriminate; contradiction.
  - intros c s. unfold probe_autocomplete. rewrite Hsp. unfold bind at 1. unfold lift at 1.
    cbv beta iota. unfold bind at 1. rewrite fetch_json_eq. cbv zeta. unfold get_request.
    destruct (parsed _) as [code js].
    unfold bind, lift, ret.
    repeat case_match; simplify_eq; eexists; (split; [reflexivity|]); try discriminate.
    all: intros [= ->];
      match goal with
      | Hg : get ?v _ _ = Raise IndexError |- _ => destruct v; discriminate Hg
      | Hi : item0 ?v = Raise IndexError, Ht : truthy ?v = true |- _ =>
          destruct v as [| | | |[|]|[|]|]; cbn in Hi, Ht; congruence
      end.
Qed.



End OneProbe.
End ProbeClaims.

(** ** Claims about a whole run *)

Lemma tl_services x :
  In x (tl SERVICES) -> In x SERVICES /\ x <> U "geocode".
Proof.
  unfold SERVICES. cbn [tl In]. intros Hx.
  repeat destruct Hx as [<-|Hx]; try contradiction; (split; [tauto | lit_neq]).
Qed.

Lemma coord_in_services x : In x coord_services -> In x SERVICES.
Proof.
  unfold coord_services, SERVICES. cbn [In]. intros Hx.
  repeat destruct Hx as [<-|Hx]; try contradiction; tauto.
Qed.

Lemma place_in_services x : In x place_services -> In x SERVICES.
Proof.
  unfold place_services, SERVICES. cbn [In]. intros Hx.
  repeat destruct Hx as [<-|Hx]; try contradiction; tauto.
Qed.

Lemma gate_coord_off p x : In x coord_services -> gate VNone p x = false.
Proof. intros Hx. unfold gate. apply mem_In in Hx. rewrite Hx. reflexivity. Qed.

Lemma gate_place_off g x : In x place_services -> gate g VNone x = false.
Proof.
  unfold place_services, gate. cbn [In]. intros Hx.
  repeat destruct Hx as [<-|Hx]; try contradiction;
    unfold coord_services, place_services; cbn [mem existsb]; lits; reflexivity.
Qed.

Lemma geocode_not_coord : ~ In (U "geocode") coord_services.
Proof.
  unfold coord_services. cbn [In]. intros Hx.
  repeat destruct Hx as [Hx|Hx]; try contradiction; revert Hx; lit_neq.
Qed.

Lemma geocode_not_place : ~ In (U "geocode") place_services.
Proof.
  unfold place_services. cbn [In]. intros Hx.
  repeat destruct Hx as [Hx|Hx]; try contradiction; revert Hx; lit_neq.
Qed.

Section Skips.
Context `{PyLib} (w : world) (key place : str) (out_root : path).

Abbreviation body := (loop_body w key place out_root).
Abbreviation rq := (request_of w key place).
Abbreviation ep := (endpoint w key place).

Lemma run_probes_eq s :
  run_probes w key place out_root s =
  bind (probe_geocode w key place ctx0) (for_each (tl SERVICES) body) s.
Proof. reflexivity. Qed.

(** Probes of a class that the locals switch off leave no request and no
    entry behind. *)
Lemma tail_skips (cls : list str) (off : value -> value -> Prop) :
  (forall x, In x cls -> In x SERVICES) ->
  (forall g p x, off g p -> In x cls -> gate g p x = false) ->
  forall c s s' r,
    off (geo c) (pid c) ->
    (forall x, In x cls -> dict_get x (results c) = None) ->
    for_each (tl SERVICES) body c s = (s', r) ->
    (forall q x, In q (drop (length (net s)) (net s')) -> In x cls -> url q <> ep x) /\
    (forall c', r = Ok c' -> forall x, In x cls -> dict_get x (results c') = None).
Proof.
  intros Hcls Hoff c s s' r Hc Hres Hrun. split.
  - destruct (run_log w key place out_root (tl SERVICES) tl_services c s s' r Hrun)
      as (done & rest & Hnet & Hf & _).
    intros q x Hq Hx. rewrite Hnet, drop_app_length in Hq.
    apply in_map_iff in Hq as (y & <- & Hy).
    assert (In y (List.filter (gate (geo c) (pid c)) (tl SERVICES))) as Hy'
      by (rewrite Hf; apply in_or_app; left; exact Hy).
    apply filter_In in Hy' as [Hy1 Hy2]. apply tl_services in Hy1 as [Hy1 _].
    rewrite url_request_of. intros E. apply endpoint_inj in E; auto. subst y.
    rewrite (Hoff _ _ _ Hc Hx) in Hy2. discriminate.
  - pose proof (for_each_inv w key place out_root
      (fun c s => off (geo c) (pid c) /\ forall x, In x cls -> dict_get x (results c) = None)
      (fun _ => True) (tl SERVICES) (fun x Hx => proj1 (tl_services x Hx))) as Hinv.
    cbv beta in Hinv.
    assert (match r with
            | Ok c' => off (geo c') (pid c') /\
                       forall x, In x cls -> dict_get x (results c') = None
            | Raise _ => True
            end) as Hfin.
    { apply (Hinv) with (c := c) (s := s) (s' := s'); auto.
      intros svc c0 s0 s0' r0 Hin [Hc0 Hr0] Hg Hstep.
      destruct r0 as [c1|e]; [|exact Logic.I].
      destruct Hstep as (_ & _ & _ & _ & Hok).
      destruct (Hok c1 eq_refl) as (_ & Hgp & Hr).
      destruct (Hgp (proj2 (tl_services svc Hin))) as [-> ->]. split; [exact Hc0|].
      intros x Hx. destruct Hr as [[-> _]|(o & -> & _)]; [auto|].
      rewrite dict_get_set_ne; [auto|].
      intros ->. rewrite (Hoff _ _ _ Hc0 Hx) in Hg. discriminate. }
    intros c' -> x Hx. destruct Hfin as [_ Hfin]. auto.
Qed.

Lemma geocode_step c s s' r :
  probe_geocode w key place c s = (s', r) ->
  step_spec w key place out_root (U "geocode") c s s' r.
Proof. apply spec_geocode. Qed.

(** Claim C2. In a run in which the geocode probe did not set [geo]
    (respectively [pid]), no request goes to the endpoint of a probe that
    needs the position (respectively the place id), and the mapping returned
    has no entry for any of them. *)
Theorem dependent_probes_skipped s0 s' r :
  test_key_place w key place out_root s0 = (s', r) ->
  ((forall c1, snd (probe_geocode w key place ctx0 s0) = Ok c1 -> geo c1 = VNone) ->
   (forall q svc, In q (drop (length (net s0)) (net s')) ->
      In svc coord_services -> url q <> ep svc) /\
   (forall res svc, r = Ok res -> In svc coord_services -> dict_get svc res = None)) /\
  ((forall c1, snd (probe_geocode w key place ctx0 s0) = Ok c1 -> pid c1 = VNone) ->
   (forall q svc, In q (drop (length (net s0)) (net s')) ->
      In svc place_services -> url q <> ep svc) /\
   (forall res svc, r = Ok res -> In svc place_services -> dict_get svc res = None)).
Proof.
  intros Hrun.
  assert (forall (cls : list str) (off : value -> value -> Prop),
    (forall x, In x cls -> In x SERVICES) ->
    ~ In (U "geocode") cls ->
    (forall g p x, off g p -> In x cls -> gate g p x = false) ->
    (forall c1, snd (probe_geocode w key place ctx0 s0) = Ok c1 -> off (geo c1) (pid c1)) ->
    (forall q svc, In q (drop (length (net s0)) (net s')) -> In svc cls -> url q <> ep svc) /\
    (forall res svc, r = Ok res -> In svc cls -> dict_get svc res = None)) as Hgen.
  { intros cls off Hcls Hng Hoff Hgeo.
    unfold test_key_place, bind in Hrun. rewrite run_probes_eq in Hrun.
    unfold bind, ret in Hrun.
    destruct (probe_geocode w key place ctx0 s0) as [s1 [c1|e]] eqn:Hg.
    - specialize (Hgeo c1 eq_refl).
      pose proof (geocode_step _ _ _ _ Hg) as (_ & _ & _ & _ & Hok).
      destruct (Hok c1 eq_refl) as (Hn1 & _ & Hr1).
      assert (forall x, In x cls -> dict_get x (results c1) = None) as Hres1.
      { intros x Hx. destruct Hr1 as [[-> _]|(o & -> & _)]; [reflexivity|].
        cbn [ctx0 results]. rewrite dict_get_set_ne; [reflexivity|].
        intros <-. contradiction. }
      destruct (for_each (tl SERVICES) body c1 s1) as [s2 r2] eqn:Ht.
      destruct (tail_skips cls off Hcls Hoff c1 s1 s2 r2 Hgeo Hres1 Ht) as [Hq Hr].
      assert (s2 = s') as -> by (destruct r2; congruence).
      split.
      + intros q svc Hin Hsvc.
        destruct (run_log w key place out_root (tl SERVICES) tl_services c1 s1 s' r2 Ht)
          as (done & rest & Hnet & _).
        rewrite Hnet, Hn1 in Hin. rewrite <- app_assoc, drop_app_length in Hin.
        apply in_app_or in Hin as [Hin|Hin].
        * destruct Hin as [<-|[]]. rewrite url_request_of.
          intros E. apply endpoint_inj in E; auto.
          -- subst svc. contradiction.
          -- unfold SERVICES. left. reflexivity.
        * apply (Hq q svc); auto. rewrite Hnet, drop_app_length. exact Hin.
      + intros res svc -> Hsvc. destruct r2 as [c2|e]; [|discriminate].
        injection Hrun as <-. eapply Hr; eauto.
    - injection Hrun as <- <-.
      pose proof (geocode_step _ _ _ _ Hg) as (Hn & _).
      split; [|discriminate].
      intros q svc Hin Hsvc.
      destruct Hn as [Hn|[Hn _]]; rewrite Hn in Hin.
      + rewrite drop_app_length in Hin. destruct Hin as [<-|[]]. rewrite url_request_of.
        intros E. apply endpoint_inj in E; auto.
        * subst svc. contradiction.
        * unfold SERVICES. left. reflexivity.
      + rewrite drop_all in Hin. destruct Hin. }
  split; intros Hgeo.
  - apply (Hgen coord_services (fun g _ => g = VNone)); auto using coord_in_services, geocode_not_coord.
    intros g p x -> Hx. apply gate_coord_off; exact Hx.
  - apply (Hgen place_services (fun _ p => p = VNone)); auto using place_in_services, geocode_not_place.
    intros g p x -> Hx. apply gate_place_off; exact Hx.
Qed.

End Skips.

Section Coordinates.
Context `{PyLib} (w : world) (key place : str) (out_root : path).

Abbreviation body := (loop_body w key place out_root).
Abbreviation rq := (request_of w key place).
Abbreviation ep := (endpoint w key place).

Lemma request_carries g p x : In x SERVICES -> carries w key place g p (rq g p x).
Proof.
  intros Hx. unfold carries.
  repeat match goal with |- _ /\ _ => split end; intros E;
    rewrite url_request_of in E;
    (apply endpoint_inj in E; [|exact Hx|unfold SERVICES; cbn [In]; tauto]);
    subst x; table (@request_of); cbn [params get_request dict_get]; lits;
    repeat match goal with |- _ /\ _ => split end; reflexivity.
Qed.

Lemma geocode_geo c s s' c1 :
  probe_geocode w key place c s = (s', Ok c1) ->
  geo c1 = geo c \/ exists a b, geo c1 = VStr (a ++ U "," ++ b).
Proof.
  unfold probe_geocode. unfold bind at 1. rewrite fetch_json_eq. cbv zeta.
  destruct (parsed _) as [code js]. unfold bind, lift, ret.
  repeat case_match; intros; simplify_eq; cbn [geo]; eauto.
Qed.

(** Claim C4, amended. In a run in which the geocode probe set [geo] to
    a string, every request to Static Map, Street View, Distance Matrix,
    Elevation, Time Zone and Nearby Search carries that string as its
    position parameter, and when the run returns each of the six has been
    sent; a request to Place Details carries the derived place id and the
    key, nothing else. *)
Theorem coordinates_passed s0 c1 g s' r :
  snd (probe_geocode w key place ctx0 s0) = Ok c1 ->
  geo c1 = VStr g ->
  test_key_place w key place out_root s0 = (s', r) ->
  (forall q, In q (drop (length (net s0)) (net s')) -> carries w key place (VStr g) (pid c1) q) /\
  (forall res svc, r = Ok res ->
     In svc position_probes ->
     exists q, In q (drop (length (net s0)) (net s')) /\ url q = ep svc).
Proof.
  intros Hg Hgeo Hrun.
  unfold test_key_place, bind in Hrun. rewrite run_probes_eq in Hrun.
  unfold bind, ret in Hrun.
  destruct (probe_geocode w key place ctx0 s0) as [s1 [c1'|e]] eqn:Hp; [|discriminate].
  cbn [snd] in Hg. injection Hg as ->.
  pose proof (geocode_step _ _ _ out_root _ _ _ _ Hp) as (_ & _ & _ & _ & Hok).
  destruct (Hok c1 eq_refl) as (Hn1 & _ & _).
  destruct (for_each (tl SERVICES) body c1 s1) as [s2 r2] eqn:Ht.
  assert (s2 = s') as -> by (destruct r2; congruence).
  destruct (run_log w key place out_root (tl SERVICES) tl_services c1 s1 s' r2 Ht)
    as (done & rest & Hnet & Hf & Hr).
  rewrite Hgeo in Hnet, Hf.
  assert (drop (length (net s0)) (net s') =
          rq (geo ctx0) (pid ctx0) (U "geocode") :: map (rq (VStr g) (pid c1)) done) as Hnew.
  { rewrite Hnet, Hn1, <- app_assoc, drop_app_length. reflexivity. }
  rewrite Hnew. split.
  - intros q [<-|Hq].
    + assert (rq (geo ctx0) (pid ctx0) (U "geocode") = rq (VStr g) (pid c1) (U "geocode")) as ->
        by reflexivity.
      apply request_carries. unfold SERVICES. left. reflexivity.
    + apply in_map_iff in Hq as (y & <- & Hy). apply request_carries.
      assert (In y (List.filter (gate (VStr g) (pid c1)) (tl SERVICES))) as Hy'
        by (rewrite Hf; apply in_or_app; left; exact Hy).
      apply filter_In in Hy' as [Hy1 _]. apply tl_services in Hy1 as [Hy1 _]. exact Hy1.
  - intros res svc -> Hsvc. destruct r2 as [c2|e]; [|discriminate].
    destruct (Hr c2 eq_refl) as (-> & _). rewrite app_nil_r in Hf.
    exists (rq (VStr g) (pid c1) svc). split; [|apply url_request_of].
    right. apply in_map. rewrite <- Hf. apply filter_In.
    assert (truthy (VStr g) = true) as Hgt.
    { destruct (geocode_geo _ _ _ _ Hp) as [E|(a & b & E)]; rewrite Hgeo in E.
      - discriminate E.
      - injection E as ->. destruct a; reflexivity. }
    unfold position_probes in Hsvc. cbn [In] in Hsvc.
    repeat destruct Hsvc as [<-|Hsvc]; try contradiction;
      (split; [unfold SERVICES; cbn [tl In]; tauto | table gate; exact Hgt]).
Qed.

End Coordinates.

Lemma dict_get_set_some {V} (k k' : str) (v : V) d :
  is_Some (dict_get k' d) -> is_Some (dict_get k' (dict_set k v d)).
Proof.
  intros Hs. destruct (str_eqb k k') eqn:E.
  - apply str_eqb_eq in E. subst. rewrite dict_get_set_eq. eauto.
  - rewrite dict_get_set_ne; [exact Hs|]. intros ->. rewrite str_eqb_refl in E. discriminate.
Qed.

Section Entries.
Context `{PyLib} (w : world) (key place : str) (out_root : path).

Abbreviation body := (loop_body w key place out_root).
Abbreviation rq := (request_of w key place).
Abbreviation ep := (endpoint w key place).

Lemma backed_mono n0 s s1 q x :
  net s1 = net s ++ [q] -> backed w key place n0 s x -> backed w key place n0 s1 x.
Proof.
  intros Hn (i & q' & Hi & Hq & Hu & Hm). exists i, q'. rewrite Hn.
  repeat split; auto. apply lookup_app_l_Some. exact Hq.
Qed.

Lemma entries_backed s0 s' r :
  for_each SERVICES body ctx0 s0 = (s', r) ->
  forall c', r = Ok c' ->
  forall svc o, dict_get svc (results c') = Some o ->
    svc = U "batchgeocode" \/ svc = U "geolocate" \/ backed w key place (length (net s0)) s' svc.
Proof.
  intros Hrun.
  pose proof (for_each_inv w key place out_root
    (fun c s => (length (net s0) <= length (net s))%nat /\
       forall svc o, dict_get svc (results c) = Some o ->
         svc = U "batchgeocode" \/ svc = U "geolocate" \/ backed w key place (length (net s0)) s svc)
    (fun _ => True) SERVICES (fun x Hx => Hx)) as Hinv.
  cbv beta in Hinv.
  assert (match r with
          | Ok c' => (length (net s0) <= length (net s'))%nat /\
              forall svc o, dict_get svc (results c') = Some o ->
                svc = U "batchgeocode" \/ svc = U "geolocate" \/
                backed w key place (length (net s0)) s' svc
          | Raise _ => True
          end) as Hfin.
  { apply Hinv with (c := ctx0) (s := s0); [| |exact Hrun].
    - intros svc c s s1 r1 Hin [Hlen HI] Hg Hstep.
      destruct r1 as [c1|e]; [|exact Logic.I].
      destruct Hstep as (_ & _ & _ & _ & Hok).
      destruct (Hok c1 eq_refl) as (Hn & _ & Hr).
      split; [rewrite Hn, length_app; lia|].
      intros svc' o Ho.
      destruct Hr as [[Hr _]|(o1 & Hr & Hm)]; rewrite Hr in Ho.
      + destruct (HI _ _ Ho) as [?|[?|Hb]]; auto.
        right; right. eapply backed_mono; eauto.
      + destruct (str_eqb svc svc') eqn:E.
        * apply str_eqb_eq in E. subst svc'.
          destruct Hm as [Hm|[?|?]]; auto.
          right; right. exists (length (net s)), (rq (geo c) (pid c) svc).
          split; [exact Hlen|]. split; [rewrite Hn; apply list_lookup_middle; reflexivity|].
          split; [apply url_request_of | exact Hm].
        * rewrite dict_get_set_ne in Ho
            by (intros ->; rewrite str_eqb_refl in E; discriminate).
          destruct (HI _ _ Ho) as [?|[?|Hb]]; auto.
          right; right. eapply backed_mono; eauto.
    - split; [lia|]. intros svc o Ho. discriminate Ho. }
  intros c' ->. apply Hfin.
Qed.

Lemma gate_always g p x :
  x = U "batchgeocode" \/ x = U "geolocate" -> gate g p x = true.
Proof. intros [->| ->]; table gate; reflexivity. Qed.

Lemma entries_recorded xs :
  (forall x, In x xs -> In x SERVICES) ->
  forall c s s' c', for_each xs body c s = (s', Ok c') ->
  forall x,
    (In x xs /\ (x = U "batchgeocode" \/ x = U "geolocate")) \/
    is_Some (dict_get x (results c)) ->
    is_Some (dict_get x (results c')).
Proof.
  induction xs as [|a xs IH]; intros Hsub c s s' c' Hrun x Hx.
  - injection Hrun as <- <-. destruct Hx as [[[] _]|Hx]. exact Hx.
  - cbn [for_each] in Hrun. unfold bind in Hrun.
    destruct (body a c s) as [s1 [c1|e]] eqn:Ha; [|discriminate].
    apply (IH (fun y Hy => Hsub y (in_cons _ _ _ Hy)) c1 s1 s' c' Hrun x).
    destruct (gate (geo c) (pid c) a) eqn:Hg.
    + apply loop_body_spec in Ha; auto using in_eq.
      destruct Ha as (_ & _ & _ & _ & Hok). destruct (Hok c1 eq_refl) as (_ & _ & Hr).
      destruct Hx as [[[<-|Hin] Hsp]|Hx].
      * right. destruct Hr as [(_ & Hn1 & Hn2)|(o & -> & _)].
        -- destruct Hsp; contradiction.
        -- rewrite dict_get_set_eq. eauto.
      * left. auto.
      * right. destruct Hr as [(-> & _)|(o & -> & _)]; [exact Hx|].
        apply dict_get_set_some. exact Hx.
    + rewrite gate_false_body in Ha by auto using in_eq. injection Ha as <- <-.
      destruct Hx as [[[<-|Hin] Hsp]|Hx]; auto.
      rewrite gate_always in Hg by exact Hsp. discriminate.
Qed.

(** Claim C1, amended. For every service other than "batchgeocode" and
    "geolocate": when no reply to a request sent to its endpoint during the
    run bears the success marker, the mapping returned by [test_key_place]
    has no entry for it. "batchgeocode" and "geolocate" have an entry in
    every mapping returned. *)
Theorem soft_failure_entries s0 s' res :
  test_key_place w key place out_root s0 = (s', Ok res) ->
  (forall svc,
     svc <> U "batchgeocode" -> svc <> U "geolocate" ->
     (forall i q, (length (net s0) <= i)%nat -> net s' !! i = Some q ->
        url q = ep svc -> marker svc (server w i q) = false) ->
     dict_get svc res = None) /\
  is_Some (dict_get (U "batchgeocode") res) /\
  is_Some (dict_get (U "geolocate") res).
Proof.
  intros Hrun. unfold test_key_place, bind, ret in Hrun.
  destruct (run_probes w key place out_root s0) as [s1 [c1|e]] eqn:Hp; [|discriminate].
  injection Hrun as -> <-. unfold run_probes in Hp. split; [|split].
  - intros svc Hb Hl Hno.
    destruct (dict_get svc (results c1)) as [o|] eqn:Ho; [exfalso|reflexivity].
    destruct (entries_backed _ _ _ Hp c1 eq_refl svc o Ho)
      as [?|[?|(i & q & Hi & Hq & Hu & Hm)]]; try contradiction.
    rewrite (Hno i q Hi Hq Hu) in Hm. discriminate.
  - apply (entries_recorded SERVICES (fun x Hx => Hx) _ _ _ _ Hp). left.
    split; [unfold SERVICES; cbn [In]; tauto | left; reflexivity].
  - apply (entries_recorded SERVICES (fun x Hx => Hx) _ _ _ _ Hp). left.
    split; [unfold SERVICES; cbn [In]; tauto | right; reflexivity].
Qed.

End Entries.


Section Files.
Context `{PyLib} (w : world) (key place : str) (out_root : path).

Abbreviation body := (loop_body w key place out_root).
Abbreviation rq := (request_of w key place).
Abbreviation ep := (endpoint w key place).







End Files.

(** ** [main] *)

Section MainFacts.
Context `{PyLib} (w : world).

Lemma print_ok line s :
  print line s = (({| net := net s; fs := fs s; out := out s ++ [line ++ [10%N]]; inp := inp s |}), Ok tt).
Proof. reflexivity. Qed.

Lemma for_each_quiet {A} (xs : list A) (f : A -> unit -> M unit) :
  (forall x u s, exists s', f x u s = (s', Ok tt) /\ net s' = net s /\ fs s' = fs s) ->
  forall s, exists s', for_each xs f tt s = (s', Ok tt) /\ net s' = net s /\ fs s' = fs s.
Proof.
  intros Hf. induction xs as [|x xs IH]; intros s.
  - exists s. auto.
  - cbn [for_each]. unfold bind. destruct (Hf x tt s) as (s1 & -> & Hn1 & Hf1).
    destruct (IH s1) as (s2 & -> & Hn2 & Hf2). exists s2. repeat split; congruence.
Qed.

Lemma bind_print {B} line (k : unit -> M B) s :
  bind (print line) k s =
  k tt {| net := net s; fs := fs s; out := out s ++ [line ++ [10%N]]; inp := inp s |}.
Proof. reflexivity. Qed.

Lemma print_table_ok key place res s :
  exists s', print_table key place res s = (s', Ok tt) /\ net s' = net s /\ fs s' = fs s.
Proof.
  unfold print_table. rewrite !bind_print.
  match goal with |- context [bind (for_each res ?f tt) _ ?s0] =>
    destruct (for_each_quiet res f) with (s := s0) as (s1 & E & Hn & Hf) end.
  - intros [svc r] [] t. cbv beta iota zeta. rewrite bind_print.
    destruct (negb (is_none (raw r))).
    + match goal with |- context [for_each ?l ?f tt ?s0] =>
        destruct (for_each_quiet l f) with (s := s0) as (s1 & E & Hn & Hf) end.
      * intros line [] t'. rewrite print_ok. eexists. split; [reflexivity|]. auto.
      * exists s1. split; [exact E|]. auto.
    + eexists. split; [reflexivity|]. auto.
  - unfold bind at 1. rewrite E. rewrite print_ok. eexists. split; [reflexivity|]. auto.
Qed.

(** An empty key or place: the message, status 1, nothing sent. *)
Lemma main_rejects_empty k p rest :
  strip k = [] \/ strip p = [] ->
  exists s',
    main w (io0 (k :: p :: rest)) = (s', Raise (SystemExit 1)) /\
    exit_status (Raise (SystemExit 1)) = 1 /\
    net s' = [] /\
    out s' = [U "Enter your Google Maps API key: ";
              U "Enter place (address or lat,lng): ";
              U "API key and place are required." ++ [10%N]].
Proof.
  intros Hempty. unfold main, bind, input, io0, raise. cbn [inp out net fs].
  assert (negb (truthy (VStr (strip k))) || negb (truthy (VStr (strip p))) = true) as ->.
  { destruct Hempty as [-> | ->]; cbn; [reflexivity | apply orb_true_r]. }
  rewrite print_ok. eexists. repeat split.
Qed.

(** Both given and every probe returns: the report, status 0. *)
Lemma main_reports k p rest s1 res :
  strip k <> [] -> strip p <> [] ->
  test_key_place w (strip k) (strip p)
    [U "output"; slice_to 8 (sha1_hexdigest (strip k))]
    {| net := []; fs := ∅;
       out := [U "Enter your Google Maps API key: ";
               U "Enter place (address or lat,lng): "];
       inp := rest |} = (s1, Ok res) ->
  exists s',
    main w (io0 (k :: p :: rest)) = (s', Ok tt) /\
    exit_status (Ok tt) = 0 /\
    print_table (strip k) (strip p) res s1 = (s', Ok tt).
Proof.
  intros Hk Hp Hrun. unfold main, bind, input, io0. cbn [inp out net fs app].
  assert (negb (truthy (VStr (strip k))) || negb (truthy (VStr (strip p))) = false) as ->.
  { destruct (strip k); [contradiction|]. destruct (strip p); [contradiction|]. reflexivity. }
  rewrite Hrun. destruct (print_table_ok (strip k) (strip p) res s1) as (s' & E & _).
  exists s'. rewrite E. auto.
Qed.

End MainFacts.

(** * The claims on concrete runs *)

Section Examples.
#[local] Existing Instance example_lib.

(** Every endpoint refuses the key with status 403: no reply bears a
    marker, and the batch geocoder and the geolocator are listed all the
    same. *)
Lemma denied_key_still_listed :
  snd (example_run world_denied) = Ok denied_results /\
  (forall n q,
     marker (U "batchgeocode") (server world_denied n q) = false /\
     marker (U "geolocate") (server world_denied n q) = false) /\
  is_Some (dict_get (U "batchgeocode") denied_results) /\
  is_Some (dict_get (U "geolocate") denied_results).
Proof.
  split; [vm_compute; reflexivity|]. split.
  - intros n q. split; vm_compute; reflexivity.
  - split; vm_compute; eauto.
Qed.

(** [soft_failure_entries] on that run. *)
Lemma soft_failure_entries_denied :
  (forall svc,
     svc <> U "batchgeocode" -> svc <> U "geolocate" ->
     (forall i q,
        (length (net (io0 [])) <= i)%nat ->
        net (fst (example_run world_denied)) !! i = Some q ->
        url q = endpoint world_denied example_key example_place svc ->
        marker svc (server world_denied i q) = false) ->
     dict_get svc denied_results = None) /\
  is_Some (dict_get (U "batchgeocode") denied_results) /\
  is_Some (dict_get (U "geolocate") denied_results).
Proof.
  apply (soft_failure_entries world_denied example_key example_place example_root (io0 [])).
  vm_compute. reflexivity.
Defined.

(** [dependent_probes_skipped] when no request gets through. *)
Lemma dependent_probes_skipped_offline :
  ((forall q svc,
      In q (drop (length (net (io0 []))) (net (fst (example_run world_offline)))) ->
      In svc coord_services ->
      url q <> endpoint world_offline example_key example_place svc) /\
   (forall res svc,
      snd (example_run world_offline) = Ok res ->
      In svc coord_services -> dict_get svc res = None)) /\
  ((forall q svc,
      In q (drop (length (net (io0 []))) (net (fst (example_run world_offline)))) ->
      In svc place_services ->
      url q <> endpoint world_offline example_key example_place svc) /\
   (forall res svc,
      snd (example_run world_offline) = Ok res ->
      In svc place_services -> dict_get svc res = None)).
Proof.
  destruct (dependent_probes_skipped world_offline example_key example_place example_root
              (io0 []) _ _ (surjective_pairing (example_run world_offline))) as [Hc Hp].
  split; [apply Hc | apply Hp]; intros c1 E; vm_compute in E; injection E as <-; reflexivity.
Defined.


(** The geocoder answers with a position and a place id; Place Details is
    asked with the place id and the key, and neither is the position. *)
Lemma place_details_gets_no_position :
  snd (example_geocode world_geocoded) = Ok geocoded_ctx /\
  geo geocoded_ctx = VStr (U "37,-122") /\
  (exists res, snd (example_run world_geocoded) = Ok res) /\
  List.filter
    (fun q => str_eqb (url q)
                (endpoint world_geocoded example_key example_place (U "placedetails")))
    (net (fst (example_run world_geocoded))) =
    [get_request (U "https://maps.googleapis.com/maps/api/place/details/json")
       [(U "place_id", VStr (U "ChIJj61dQgK6j4AR4GeTYWZsKWw"));
        (U "key", VStr example_key)]] /\
  ~ In (VStr (U "37,-122"))
       [VStr (U "ChIJj61dQgK6j4AR4GeTYWZsKWw"); VStr example_key].
Proof.
  split; [vm_compute; reflexivity|]. split; [reflexivity|].
  split; [eexists; vm_compute; reflexivity|]. split; [vm_compute; reflexivity|].
  intros [E|[E|[]]]; vm_compute in E; discriminate E.
Qed.

(** [coordinates_passed] on that run. *)
Lemma coordinates_passed_geocoded :
  (forall q,
     In q (drop (length (net (io0 []))) (net (fst (example_run world_geocoded)))) ->
     carries world_geocoded example_key example_place
       (VStr (U "37,-122")) (pid geocoded_ctx) q) /\
  (forall res svc,
     snd (example_run world_geocoded) = Ok res ->
     In svc position_probes ->
     exists q,
       In q (drop (length (net (io0 []))) (net (fst (example_run world_geocoded)))) /\
       url q = endpoint world_geocoded example_key example_place svc).
Proof.
  apply (coordinates_passed world_geocoded example_key example_place example_root (io0 [])
           geocoded_ctx (U "37,-122")).
  - vm_compute. reflexivity.
  - reflexivity.
  - apply surjective_pairing.
Defined.





(** [autocomplete_first_token] on a place of three words. *)
Lemma autocomplete_first_token_example :
  exists pre tok post rest,
    split example_place = tok :: rest /\
    example_place = pre ++ tok ++ post /\
    Forall (fun c => is_space c = true) pre /\
    tok <> [] /\
    Forall (fun c => is_space c = false) tok /\
    (post = [] \/ exists c post', post = c :: post' /\ is_space c = true) /\
    (tok = example_place <-> Forall (fun c => is_space c = false) example_place) /\
    forall c s, exists r,
      probe_autocomplete world_offline example_key example_place c s =
      (sent (get_request (U "https://maps.googleapis.com/maps/api/place/autocomplete/json")
               [(U "input", VStr tok); (U "types", VStr (U "geocode"));
                (U "key", VStr example_key)]) s, r) /\
      r <> Raise IndexError.
Proof.
  apply (autocomplete_first_token world_offline example_key example_place).
  vm_compute. discriminate.
Defined.

(** Claim C7, where the script departs from it. Key and place are given
    and the geocoder answers "OK" with no result: [main] ends in an uncaught
    IndexError, so the exit status is 1 and no report is printed. *)
Theorem main_crashes_on_empty_results :
  strip example_key <> [] /\ strip example_place <> [] /\
  snd (example_main world_no_results) = Raise IndexError /\
  exit_status (snd (example_main world_no_results)) = 1 /\
  out (fst (example_main world_no_results)) =
    [U "Enter your Google Maps API key: "; U "Enter place (address or lat,lng): "].
Proof. repeat split; try (vm_compute; discriminate); vm_compute; reflexivity. Qed.

End Examples.
